(** * Product inventory service: handlers of [main.py] over a modelled
      SQLAlchemy session, and the properties of its specification.

    The development follows the source top-down: the persisted [Product]
    row and the pydantic request models, the unit-of-work session
    ([db.add], attribute assignment, [db.delete], [db.commit],
    [db.rollback], [db.refresh]) on a SQLite table, the five path
    operations written in a state-and-exception monad, and the FastAPI
    boundary that validates the request model, opens a session per request
    ([get_db]), turns an [HTTPException] into an error response and
    validates and renders the result through [ProductResponse]. *)

From Stdlib Require Import ZArith List String Ascii Bool Lia.
From Stdlib Require Import Floats.SpecFloat.
Import ListNotations.

Local Open Scope string_scope.
Local Open Scope list_scope.
Local Open Scope Z_scope.

(** ** Values *)

(** Python [float] is an IEEE-754 double: the standard library's
    specification floats, with their comparison ([NaN] compares false). *)
Definition float := spec_float.

Definition zero : float := S754_zero false.

(** [a > b], [a <= b] and [a >= b] on floats. *)
Definition float_gt (a b : float) : bool := SFltb b a.
Definition float_le (a b : float) : bool := SFleb a b.
Definition float_ge (a b : float) : bool := SFleb b a.

(** A float JSON can carry: neither [NaN] nor an infinity. *)
Definition finite (x : float) : bool :=
  match x with
  | S754_zero _ | S754_finite _ _ _ => true
  | S754_infinity _ | S754_nan => false
  end.

(** An integer SQLite can bind: a signed 64-bit value. *)
Definition int64 (z : Z) : bool :=
  (-9223372036854775808 <=? z) && (z <? 9223372036854775808).

(** Truth value of a Python [str]: only the empty string is falsy. *)
Definition truthy (s : string) : bool :=
  match s with
  | EmptyString => false
  | String _ _ => true
  end.

Definition opt_eqb {A : Type} (eqb : A -> A -> bool) (x y : option A) : bool :=
  match x, y with
  | Some a, Some b => eqb a b
  | None, None => true
  | _, _ => false
  end.

(** ** Data model *)

(** A row of table [products] (lines 23-32), which is also the body of a
    [ProductResponse]: the [nullable=False] columns hold a value, the
    nullable ones may hold [None]. *)
Module Product.
Record t := mk {
  id : Z;
  name : string;
  price : float;
  quantity : Z;
  description : option string;
  category : option string
}.
End Product.

(** A [Product] object while it lives in a session: Python lets any
    attribute be assigned [None]; the column constraints are only checked
    when the session flushes. *)
Module Instance.
Record t := mk {
  id : Z;
  name : option string;
  price : option float;
  quantity : option Z;
  description : option string;
  category : option string
}.
End Instance.

(** [ProductCreate] (lines 35-40): a structurally well-typed payload,
    with every required field present and each field of its annotated
    type; [None] for [description] or [category] is a field left out. *)
Module ProductCreate.
Record t := mk {
  name : string;
  price : float;
  quantity : Z;
  description : option string;
  category : option string
}.

(** [Field(..., gt=0)] on [price] and [Field(..., ge=0)] on [quantity]. *)
Definition valid (p : t) : bool :=
  float_gt (price p) zero && (0 <=? quantity p).
End ProductCreate.

(** [ProductUpdate] (lines 48-53), as a payload arrives: a field left out
    is [None] here, a field supplied as JSON [null] is [Some None], a
    field supplied with a value [v] is [Some (Some v)]. *)
Module ProductUpdate.
Record t := mk {
  name : option (option string);
  price : option (option float);
  quantity : option (option Z);
  description : option (option string);
  category : option (option string)
}.

(** One field against its annotation: the default covers a field that is
    left out, the annotations [str], [float] and [int] do not admit
    [null], and a value has to pass the field's constraint. *)
Definition field_ok {A : Type} (f : option (option A)) (ok : A -> bool) : bool :=
  match f with
  | None => true
  | Some None => false
  | Some (Some v) => ok v
  end.

(** The request model: [Field(None, gt=0)] on [price], [Field(None, ge=0)]
    on [quantity]. *)
Definition valid (p : t) : bool :=
  field_ok (name p) (fun _ => true)
  && field_ok (price p) (fun x => float_gt x zero)
  && field_ok (quantity p) (fun q => 0 <=? q)
  && field_ok (description p) (fun _ => true)
  && field_ok (category p) (fun _ => true).
End ProductUpdate.

(** One item of [product.dict(exclude_unset=True)]: a key with its value. *)
Inductive item :=
| item_name (v : option string)
| item_price (v : option float)
| item_quantity (v : option Z)
| item_description (v : option string)
| item_category (v : option string).

Definition opt_item {A : Type} (f : A -> item) (o : option A) : list item :=
  match o with
  | Some v => [f v]
  | None => []
  end.

(** The items of [update_data], in field order; unset fields are left out. *)
Definition items (update_data : ProductUpdate.t) : list item :=
  opt_item item_name (ProductUpdate.name update_data)
  ++ opt_item item_price (ProductUpdate.price update_data)
  ++ opt_item item_quantity (ProductUpdate.quantity update_data)
  ++ opt_item item_description (ProductUpdate.description update_data)
  ++ opt_item item_category (ProductUpdate.category update_data).

(** ** Storage session *)

(** Loading a row as an object, and writing an object back as a row: the
    write fails when a [nullable=False] column would receive [None]. *)
Definition load (r : Product.t) : Instance.t :=
  Instance.mk (Product.id r) (Some (Product.name r)) (Some (Product.price r))
    (Some (Product.quantity r)) (Product.description r) (Product.category r).

Definition store (o : Instance.t) : option Product.t :=
  match Instance.name o, Instance.price o, Instance.quantity o with
  | Some n, Some p, Some q =>
      Some (Product.mk (Instance.id o) n p q
              (Instance.description o) (Instance.category o))
  | _, _, _ => None
  end.

Fixpoint store_all (os : list Instance.t) : option (list Product.t) :=
  match os with
  | [] => Some []
  | o :: os' =>
      match store o, store_all os' with
      | Some r, Some rs => Some (r :: rs)
      | _, _ => None
      end
  end.

(** SQLite gives a new row of an [INTEGER PRIMARY KEY] table the largest
    id in use plus one (1 in an empty table). *)
Definition next_rowid (os : list Instance.t) : Z :=
  match map Instance.id os with
  | [] => 1
  | pk :: pks => 1 + fold_right Z.max pk pks
  end.

(** [uq_product_name]: [o] clashes when another row carries its name. *)
Definition name_clash (os : list Instance.t) (o : Instance.t) : bool :=
  existsb (fun o' => negb (Instance.id o' =? Instance.id o)
                     && opt_eqb String.eqb (Instance.name o') (Instance.name o)) os.

Definition unique_ok (os : list Instance.t) (pk : Z) : bool :=
  forallb (fun o => negb (Instance.id o =? pk) || negb (name_clash os o)) os.

(** The session of one request: the committed table, the transaction's
    view of it (the rows as objects, with the changes not yet committed),
    the ids of the rows the transaction has inserted or assigned to, and
    the integers its pending statements will bind. *)
Record Session := mkSession {
  table : list Product.t;
  objects : list Instance.t;
  written : list Z;
  bound : list Z
}.

Definition SessionLocal (db : list Product.t) : Session :=
  mkSession db (map load db) [] [].

(** ** Exceptions and the handler monad *)

(** The exceptions a request can meet. [HTTPException] is the one FastAPI
    turns into an error response. [IntegrityError] comes from a flush
    that breaks a constraint, [OverflowError] from binding an integer
    SQLite cannot hold, [OperationalError] from an insert that finds no
    id, [TypeError] from comparing [None] with a number,
    [InvalidRequestError] from refreshing an object that has no row,
    [ResponseValidationError] from a result that does not fit the
    [response_model], and [ValueError] from rendering a float JSON cannot
    carry. Nothing in the handler bodies raises the [ValidationError] and
    [ValueError] their [except] clauses name. *)
Inductive exn :=
| HTTPException (status_code : Z) (detail : string)
| IntegrityError
| OverflowError
| OperationalError
| TypeError
| InvalidRequestError
| ResponseValidationError
| ValueError.

(** What a flush does. The parameters are bound first, and an integer
    outside 64 bits raises [OverflowError] before any statement runs;
    then the constraints are checked on the rows the transaction wrote.
    An insert needs an id within 64 bits. When the largest id in use is
    2^63 - 1, SQLite draws candidate ids at random and gives up with
    [OperationalError] when no draw is free; the draw is not followed
    here, and of its outcomes the flush takes the failure. No statement
    below that reports an accepted create reaches this case. *)
Definition flush (s : Session) : exn + list Product.t :=
  if forallb int64 (bound s)
  then
    match (if forallb (unique_ok (objects s)) (written s)
           then store_all (objects s) else None) with
    | Some rows =>
        if forallb int64 (written s) then inr rows else inl OperationalError
    | None => inl IntegrityError
    end
  else inl OverflowError.

Definition M (A : Type) : Type := Session -> (exn + A) * Session.

Definition ret {A : Type} (a : A) : M A := fun s => (inr a, s).

Definition bind {A B : Type} (m : M A) (k : A -> M B) : M B :=
  fun s =>
    match m s with
    | (inr a, s') => k a s'
    | (inl e, s') => (inl e, s')
    end.

Definition raise {A : Type} (e : exn) : M A := fun s => (inl e, s).

(** [try: body except ...: handler]. The handler receives the exception
    and re-raises the ones no [except] clause matches. *)
Definition try_except {A : Type} (body : M A) (handler : exn -> M A) : M A :=
  fun s =>
    match body s with
    | (inr a, s') => (inr a, s')
    | (inl e, s') => handler e s'
    end.

Declare Scope handler_scope.
Delimit Scope handler_scope with handler.
Notation "x <- c1 ;; c2" := (bind c1 (fun x => c2))
  (at level 100, c1 at next level, right associativity) : handler_scope.
Notation "c1 ;; c2" := (bind c1 (fun _ => c2))
  (at level 100, right associativity) : handler_scope.
Local Open Scope handler_scope.

(** [db.query(Product).filter(Product.id == product_id).first()]: the id
    is a bound parameter of the query. *)
Definition db_first (product_id : Z) : M (option Instance.t) :=
  fun s =>
    if int64 product_id
    then (inr (find (fun o => Instance.id o =? product_id) (objects s)), s)
    else (inl OverflowError, s).

(** [db.query(Product).filter(...).all()] *)
Definition db_all (keep : Instance.t -> bool) : M (list Instance.t) :=
  fun s => (inr (filter keep (objects s)), s).

(** [db.add(obj)]: the object becomes a pending row; it gets the id the
    insert will give it, and the insert will bind its quantity. *)
Definition db_add (kwargs : ProductCreate.t) : M Z :=
  fun s =>
    let pk := next_rowid (objects s) in
    let obj := Instance.mk pk
                 (Some (ProductCreate.name kwargs))
                 (Some (ProductCreate.price kwargs))
                 (Some (ProductCreate.quantity kwargs))
                 (ProductCreate.description kwargs)
                 (ProductCreate.category kwargs) in
    (inr pk,
     mkSession (table s) (objects s ++ [obj]) (pk :: written s)
       (bound s ++ [ProductCreate.quantity kwargs])).

Definition assign (kv : item) (o : Instance.t) : Instance.t :=
  match kv with
  | item_name v =>
      Instance.mk (Instance.id o) v (Instance.price o) (Instance.quantity o)
        (Instance.description o) (Instance.category o)
  | item_price v =>
      Instance.mk (Instance.id o) (Instance.name o) v (Instance.quantity o)
        (Instance.description o) (Instance.category o)
  | item_quantity v =>
      Instance.mk (Instance.id o) (Instance.name o) (Instance.price o) v
        (Instance.description o) (Instance.category o)
  | item_description v =>
      Instance.mk (Instance.id o) (Instance.name o) (Instance.price o)
        (Instance.quantity o) v (Instance.category o)
  | item_category v =>
      Instance.mk (Instance.id o) (Instance.name o) (Instance.price o)
        (Instance.quantity o) (Instance.description o) v
  end.

(** The integer an assignment makes the pending update bind. *)
Definition item_bound (kv : item) : list Z :=
  match kv with
  | item_quantity (Some q) => [q]
  | _ => []
  end.

(** [setattr(db_product, key, value)] on the object loaded with id
    [product_id]. *)
Definition setattr (product_id : Z) (kv : item) : M unit :=
  fun s =>
    (inr tt,
     mkSession (table s)
       (map (fun o => if Instance.id o =? product_id then assign kv o else o)
            (objects s))
       (product_id :: written s)
       (bound s ++ item_bound kv)).

(** [for key, value in update_data.items(): setattr(db_product, key, value)] *)
Fixpoint for_items (product_id : Z) (kvs : list item) : M unit :=
  match kvs with
  | [] => ret tt
  | kv :: kvs' => setattr product_id kv ;; for_items product_id kvs'
  end.

(** [db.delete(obj)] *)
Definition db_delete (product_id : Z) : M unit :=
  fun s =>
    (inr tt,
     mkSession (table s)
       (filter (fun o => negb (Instance.id o =? product_id)) (objects s))
       (written s) (bound s)).

(** [db.commit()]: flush; an exception of the flush leaves the committed
    table as it was and the session with its pending changes. *)
Definition db_commit : M unit :=
  fun s =>
    match flush s with
    | inr rows => (inr tt, SessionLocal rows)
    | inl e => (inl e, s)
    end.

(** [db.rollback()] *)
Definition db_rollback : M unit :=
  fun s => (inr tt, SessionLocal (table s)).

(** [db.refresh(obj)]: reload the object from its committed row. *)
Definition db_refresh (product_id : Z) : M Instance.t :=
  fun s =>
    match find (fun r => Product.id r =? product_id) (table s) with
    | Some r => (inr (load r), s)
    | None => (inl InvalidRequestError, s)
    end.

(** ** Path operations *)

(** [create_product] (lines 67-82). The [except ValidationError] clause
    has nothing to catch; every exception but [IntegrityError] leaves the
    [try] statement as it is. *)
Definition create_product (product : ProductCreate.t) : M Instance.t :=
  try_except
    ((if truthy (ProductCreate.name product) then ret tt
      else raise (HTTPException 400 "Product name is required")) ;;
     db_product <- db_add product ;;
     db_commit ;;
     db_refresh db_product)
    (fun e =>
       match e with
       | IntegrityError =>
           db_rollback ;;
           raise (HTTPException 400 "Product creation failed due to duplicate name.")
       | _ => raise e
       end).

(** [get_product] (lines 85-93). The [except ValueError] clause has
    nothing to catch. *)
Definition get_product (product_id : Z) : M Instance.t :=
  try_except
    (product <- db_first product_id ;;
     match product with
     | None => raise (HTTPException 404 "Product not found")
     | Some p => ret p
     end)
    (fun e => raise e).

(** [update_product] (lines 96-120). [update_data] holds the fields the
    payload supplies; ['price' in update_data and update_data['price'] <= 0]
    compares the supplied value with 0, and comparing [None] with a number
    raises [TypeError]. *)
Definition update_product (product_id : Z) (product : ProductUpdate.t)
  : M Instance.t :=
  try_except
    (db_product <- db_first product_id ;;
     match db_product with
     | None => raise (HTTPException 404 "Product not found")
     | Some _ =>
         let update_data := product in
         match ProductUpdate.price update_data with
         | None => ret tt
         | Some None => raise TypeError
         | Some (Some p) =>
             if float_le p zero
             then raise (HTTPException 400 "Price must be greater than 0")
             else ret tt
         end ;;
         match ProductUpdate.quantity update_data with
         | None => ret tt
         | Some None => raise TypeError
         | Some (Some q) =>
             if q <? 0
             then raise (HTTPException 400
                           "Quantity must be greater than or equal to 0")
             else ret tt
         end ;;
         for_items product_id (items update_data) ;;
         db_commit ;;
         db_refresh product_id
     end)
    (fun e =>
       match e with
       | IntegrityError =>
           db_rollback ;;
           raise (HTTPException 400 "Product update failed due to integrity error.")
       | _ => raise e
       end).

(** [delete_product] (lines 123-134). *)
Definition delete_product (product_id : Z) : M string :=
  try_except
    (db_product <- db_first product_id ;;
     match db_product with
     | None => raise (HTTPException 404 "Product not found")
     | Some _ =>
         db_delete product_id ;;
         db_commit ;;
         ret "Product deleted successfully"
     end)
    (fun e => raise e).

(** [list_products] (lines 137-148). *)
Definition list_products (price_gte : option float) : M (list Instance.t) :=
  try_except
    (products <-
       match price_gte with
       | Some x =>
           db_all (fun o => match Instance.price o with
                            | Some p => float_ge p x
                            | None => false
                            end)
       | None => db_all (fun _ => true)
       end ;;
     match products with
     | [] => ret []
     | _ => ret products
     end)
    (fun e => raise e).

(** ** The FastAPI boundary *)

Inductive response (A : Type) :=
| OK (body : A)
| Error (status_code : Z) (detail : string)
| Unprocessable
| Unhandled (e : exn).
Arguments OK {A} body.
Arguments Error {A} status_code detail.
Arguments Unprocessable {A}.
Arguments Unhandled {A} e.

Definition status {A : Type} (r : response A) : Z :=
  match r with
  | OK _ => 200
  | Error c _ => c
  | Unprocessable => 422
  | Unhandled _ => 500
  end.

(** [get_db] (lines 59-64): a session is opened for the request, the
    handler runs in it, and it is closed on every exit; what persists is
    the committed table. *)
Definition get_db {A : Type} (handler : M A) (db : list Product.t)
  : (exn + A) * list Product.t :=
  let (r, s) := handler (SessionLocal db) in (r, table s).

(** A row [ProductResponse] (lines 43-45, over lines 35-40) accepts: the
    price above 0, the quantity at least 0, and [description] and
    [category] strings, as both are annotated [str]. *)
Definition presentable (r : Product.t) : bool :=
  float_gt (Product.price r) zero
  && (0 <=? Product.quantity r)
  && match Product.description r with Some _ => true | None => false end
  && match Product.category r with Some _ => true | None => false end.

(** The response for the rows a handler returns: they are validated
    against the response model, then rendered as JSON. *)
Definition respond_all (rows : list Product.t) : exn + list Product.t :=
  if forallb presentable rows
  then if forallb (fun r => finite (Product.price r)) rows
       then inr rows
       else inl ValueError
  else inl ResponseValidationError.

(** [response_model=list[ProductResponse]] *)
Definition ProductResponses (os : list Instance.t) : exn + list Product.t :=
  match store_all os with
  | Some rows => respond_all rows
  | None => inl ResponseValidationError
  end.

(** [response_model=ProductResponse] *)
Definition ProductResponse (o : Instance.t) : exn + Product.t :=
  match ProductResponses [o] with
  | inr [r] => inr r
  | inr _ => inl ResponseValidationError
  | inl e => inl e
  end.

(** One request: the handler runs in its session; an [HTTPException]
    becomes an error response, a result goes through the
    [response_model], and any other exception leaves the operation
    unhandled. *)
Definition request {A B : Type} (handler : M A) (serialise : A -> exn + B)
  (db : list Product.t) : response B * list Product.t :=
  match get_db handler db with
  | (inr a, db') =>
      (match serialise a with
       | inr b => OK b
       | inl e => Unhandled e
       end, db')
  | (inl (HTTPException c d), db') => (Error c d, db')
  | (inl e, db') => (Unhandled e, db')
  end.

(** The answer to a JSON body the request model rejects: 422, with a
    body that echoes the rejected values; a [NaN] or an infinity among
    them cannot be rendered, and the request ends in a [ValueError]. *)
Definition unprocessable {A : Type} (echoed : list float) : response A :=
  if forallb finite echoed then Unprocessable else Unhandled ValueError.

(** The floats a constraint [ok] rejects. *)
Definition rejected (ok : float -> bool) (x : float) : list float :=
  if ok x then [] else [x].

(** [POST /products/]: the body is validated as a [ProductCreate] first. *)
Definition post_products (product : ProductCreate.t) (db : list Product.t)
  : response Product.t * list Product.t :=
  if ProductCreate.valid product
  then request (create_product product) ProductResponse db
  else (unprocessable
          (rejected (fun x => float_gt x zero) (ProductCreate.price product)),
        db).

(** [GET /products/{product_id}] *)
Definition get_products_id (product_id : Z) (db : list Product.t)
  : response Product.t * list Product.t :=
  request (get_product product_id) ProductResponse db.

(** [PUT /products/{product_id}]: the body is validated as a
    [ProductUpdate] first. *)
Definition put_products_id (product_id : Z) (product : ProductUpdate.t)
  (db : list Product.t) : response Product.t * list Product.t :=
  if ProductUpdate.valid product
  then request (update_product product_id product) ProductResponse db
  else (unprocessable
          match ProductUpdate.price product with
          | Some (Some x) => rejected (fun x => float_gt x zero) x
          | _ => []
          end,
        db).

(** [DELETE /products/{product_id}] *)
Definition delete_products_id (product_id : Z) (db : list Product.t)
  : response string * list Product.t :=
  request (delete_product product_id) (fun m => inr m) db.

(** [GET /products/?price_gte=N]: [Query(None, ge=0)] constrains a
    supplied filter. A rejected query parameter is echoed as the text it
    arrived as, which can always be rendered. *)
Definition get_products (price_gte : option float) (db : list Product.t)
  : response (list Product.t) * list Product.t :=
  if match price_gte with Some x => float_ge x zero | None => true end
  then request (list_products price_gte) ProductResponses db
  else (Unprocessable, db).

(** Point lookup in a table. *)
Definition lookup (db : list Product.t) (product_id : Z) : option Product.t :=
  find (fun r => Product.id r =? product_id) db.

(** ** Definitions the statements use *)

(** The response that carries one stored row. *)
Definition respond (r : Product.t) : response Product.t :=
  match respond_all [r] with
  | inr _ => OK r
  | inl e => Unhandled e
  end.

(** The quantity a payload supplies, if it fits 64 bits. *)
Definition quantity_fits (u : ProductUpdate.t) : Prop :=
  forall q, ProductUpdate.quantity u = Some (Some q) -> q < 9223372036854775808.

(** A double from a mantissa and a binary exponent, rounded to binary64:
    [double 1 0] is [1.0], [double 25 (-1)] is [12.5]. *)
Definition double (m e : Z) : float := binary_normalize 53 1024 m e false.

(** The row an accepted create writes. *)
Definition new_row (db : list Product.t) (product : ProductCreate.t) : Product.t :=
  Product.mk (next_rowid (map load db))
    (ProductCreate.name product) (ProductCreate.price product)
    (ProductCreate.quantity product)
    (ProductCreate.description product) (ProductCreate.category product).

Definition name_taken (db : list Product.t) (n : string) : bool :=
  existsb (fun r => String.eqb (Product.name r) n) db.

(** The attribute assignments of an update, applied to one object. *)
Definition patch (update_data : ProductUpdate.t) (o : Instance.t) : Instance.t :=
  fold_left (fun o' kv => assign kv o') (items update_data) o.

(** The integers the [setattr] loop makes the update bind. *)
Definition binds (update_data : ProductUpdate.t) : list Z :=
  flat_map item_bound (items update_data).

(** The session view after the [setattr] loop on the object [product_id]. *)
Definition updated_objects (product_id : Z) (update_data : ProductUpdate.t)
  (db : list Product.t) : list Instance.t :=
  map (fun o => if Instance.id o =? product_id then patch update_data o else o)
      (map load db).

(** The two field checks of [update_product] (lines 105-108): the
    exception they raise, if any. *)
Definition field_check (update_data : ProductUpdate.t) : option exn :=
  match ProductUpdate.price update_data with
  | Some None => Some TypeError
  | Some (Some p) =>
      if float_le p zero
      then Some (HTTPException 400 "Price must be greater than 0")
      else
        match ProductUpdate.quantity update_data with
        | Some None => Some TypeError
        | Some (Some q) =>
            if q <? 0
            then Some (HTTPException 400 "Quantity must be greater than or equal to 0")
            else None
        | None => None
        end
  | None =>
      match ProductUpdate.quantity update_data with
      | Some None => Some TypeError
      | Some (Some q) =>
          if q <? 0
          then Some (HTTPException 400 "Quantity must be greater than or equal to 0")
          else None
      | None => None
      end
  end.


(** Whitespace as [str.isspace] sees it, and names made of nothing else. *)
Definition is_space (c : ascii) : bool :=
  let n := nat_of_ascii c in
  (Nat.eqb n 32 || (Nat.leb 9 n && Nat.leb n 13))%bool.

Definition blank (s : string) : bool :=
  forallb is_space (list_ascii_of_string s).

(** What the write-back of the [setattr] loop does to one stored row. *)
Definition updated_row (product_id : Z) (u : ProductUpdate.t)
  (r r' : Product.t) : Prop :=
  if Product.id r =? product_id
  then store (patch u (load r)) = Some r'
  else r' = r.

(** [row'] keeps the id of [row] and every field the payload leaves out. *)
Definition retains (u : ProductUpdate.t) (row row' : Product.t) : Prop :=
  Product.id row' = Product.id row
  /\ (ProductUpdate.name u = None -> Product.name row' = Product.name row)
  /\ (ProductUpdate.price u = None -> Product.price row' = Product.price row)
  /\ (ProductUpdate.quantity u = None ->
      Product.quantity row' = Product.quantity row)
  /\ (ProductUpdate.description u = None ->
      Product.description row' = Product.description row)
  /\ (ProductUpdate.category u = None ->
      Product.category row' = Product.category row).

(** [row'] carries every value the payload supplies. *)
Definition applied (u : ProductUpdate.t) (row' : Product.t) : Prop :=
  (forall v, ProductUpdate.name u = Some v -> v = Some (Product.name row'))
  /\ (forall v, ProductUpdate.price u = Some v -> v = Some (Product.price row'))
  /\ (forall v, ProductUpdate.quantity u = Some v ->
                v = Some (Product.quantity row'))
  /\ (forall v, ProductUpdate.description u = Some v ->
                v = Product.description row')
  /\ (forall v, ProductUpdate.category u = Some v -> v = Product.category row').

(** ** Reachable tables *)

(** The state-changing operations, and the table a sequence of them
    leaves, starting from the empty table [create_all] sets up. *)
Inductive operation :=
| Create (product : ProductCreate.t)
| Update (product_id : Z) (product : ProductUpdate.t)
| Delete (product_id : Z).

Definition apply_operation (db : list Product.t) (o : operation)
  : list Product.t :=
  match o with
  | Create product => snd (post_products product db)
  | Update product_id product => snd (put_products_id product_id product db)
  | Delete product_id => snd (delete_products_id product_id db)
  end.

Definition run (ops : list operation) : list Product.t :=
  fold_left apply_operation ops [].

(** The constraints the requests do keep: primary key, unique names,
    price above 0 and quantity of at least 0 in every row. *)
Definition in_range (r : Product.t) : Prop :=
  float_gt (Product.price r) zero = true /\ 0 <= Product.quantity r.

Definition constraints_hold (db : list Product.t) : Prop :=
  NoDup (map Product.id db)
  /\ NoDup (map Product.name db)
  /\ Forall in_range db.

(** Rows with one name have one id. *)
Definition names_by_id (db : list Product.t) : Prop :=
  forall r1 r2, In r1 db -> In r2 db ->
                Product.name r1 = Product.name r2 -> Product.id r1 = Product.id r2.

(** A response that, when it is an unhandled exception, is none of the
    three the handlers and the request model are there to stop. *)
Definition escapes_only {A : Type} (r : response A) : Prop :=
  forall e, r = Unhandled e ->
            e <> IntegrityError /\ e <> TypeError /\ e <> InvalidRequestError.

(** The session a create leaves when its flush raises. *)
Definition pending_insert (db : list Product.t) (product : ProductCreate.t)
  : Session :=
  mkSession db (map load db ++ [load (new_row db product)])
    [next_rowid (map load db)] [ProductCreate.quantity product].

(** The session an update hands to its commit. *)
Definition pending_update (product_id : Z) (u : ProductUpdate.t)
  (db : list Product.t) : Session :=
  mkSession db (updated_objects product_id u db)
    (repeat product_id (List.length (items u))) (binds u).

(** * Properties *)

(** ** Session lemmas *)

Section SessionFacts.

Lemma store_load (r : Product.t) : store (load r) = Some r.
Proof. destruct r; reflexivity. Qed.

Lemma store_all_load (db : list Product.t) : store_all (map load db) = Some db.
Proof.
  induction db as [|r db IH]; cbn [map store_all]; [reflexivity|].
  rewrite store_load, IH. reflexivity.
Qed.

Lemma store_all_app (os1 os2 : list Instance.t) (rs1 rs2 : list Product.t) :
  store_all os1 = Some rs1 -> store_all os2 = Some rs2 ->
  store_all (os1 ++ os2) = Some (rs1 ++ rs2).
Proof.
  revert rs1. induction os1 as [|o os1 IH]; simpl; intros rs1 H1 H2.
  - injection H1 as <-. exact H2.
  - destruct (store o) as [r|]; [|discriminate].
    destruct (store_all os1) as [rs|]; [|discriminate].
    injection H1 as <-. rewrite (IH rs eq_refl H2). reflexivity.
Qed.

Lemma find_load (db : list Product.t) (pk : Z) :
  find (fun o => Instance.id o =? pk) (map load db)
  = option_map load (lookup db pk).
Proof.
  unfold lookup. induction db as [|r db IH]; simpl; [reflexivity|].
  destruct (Product.id r =? pk); [reflexivity|exact IH].
Qed.

Lemma max_from_bounds (pk : Z) (pks : list Z) :
  pk <= fold_right Z.max pk pks
  /\ forall x, In x pks -> x <= fold_right Z.max pk pks.
Proof.
  induction pks as [|y pks [IH1 IH2]]; cbn [fold_right In].
  - split; [lia|tauto].
  - split; [lia|]. intros x [->|H]; [lia|]. specialize (IH2 x H). lia.
Qed.

Lemma id_below_next_rowid (os : list Instance.t) (o : Instance.t) :
  In o os -> Instance.id o < next_rowid os.
Proof.
  unfold next_rowid. intros H. apply (in_map Instance.id) in H.
  destruct (map Instance.id os) as [|pk pks]; [destruct H|].
  destruct (max_from_bounds pk pks) as [H1 H2].
  destruct H as [<-|H]; [lia|]. specialize (H2 _ H). lia.
Qed.

Lemma next_rowid_within (db : list Product.t) (lo hi : Z) :
  lo <= 0 < hi ->
  (forall r, In r db -> lo <= Product.id r < hi) ->
  lo < next_rowid (map load db) <= hi.
Proof.
  intros Hb Hids. unfold next_rowid. rewrite map_map.
  assert (H : forall x, In x (map (fun r => Instance.id (load r)) db) ->
                        lo <= x < hi).
  { intros x Hx. apply in_map_iff in Hx. destruct Hx as [r [<- Hr]].
    exact (Hids r Hr). }
  set (pks := map (fun r => Instance.id (load r)) db) in *.
  clearbody pks. clear Hids.
  destruct pks as [|pk pks]; [lia|].
  assert (G : lo <= fold_right Z.max pk pks < hi).
  { pose proof (H pk (or_introl eq_refl)) as Hpk.
    assert (Hpks : forall x, In x pks -> lo <= x < hi)
      by (intros x Hx; apply H; right; exact Hx).
    clear H. induction pks as [|y pks IH]; cbn [fold_right]; [lia|].
    pose proof (Hpks y (or_introl eq_refl)).
    specialize (IH (fun x Hx => Hpks x (or_intror Hx))). lia. }
  lia.
Qed.

Lemma next_rowid_fresh (db : list Product.t) :
  ~ In (next_rowid (map load db)) (map Product.id db).
Proof.
  intros H. apply in_map_iff in H. destruct H as [r [E Hr]].
  assert (Hlt : Instance.id (load r) < next_rowid (map load db))
    by (apply id_below_next_rowid, in_map, Hr).
  simpl in Hlt. lia.
Qed.

Lemma lookup_fresh (db : list Product.t) (pk : Z) :
  ~ In pk (map Product.id db) -> lookup db pk = None.
Proof.
  unfold lookup. induction db as [|r db IH]; simpl; intros H; [reflexivity|].
  destruct (Z.eqb_spec (Product.id r) pk) as [E|E]; [tauto|].
  apply IH. tauto.
Qed.

Lemma lookup_app_fresh (db : list Product.t) (r : Product.t) :
  ~ In (Product.id r) (map Product.id db) ->
  lookup (db ++ [r]) (Product.id r) = Some r.
Proof.
  unfold lookup. induction db as [|r' db IH]; simpl; intros H.
  - rewrite Z.eqb_refl. reflexivity.
  - destruct (Z.eqb_spec (Product.id r') (Product.id r)) as [E|E]; [tauto|].
    apply IH. tauto.
Qed.

Lemma lookup_In (db : list Product.t) (pk : Z) (r : Product.t) :
  lookup db pk = Some r -> In r db /\ Product.id r = pk.
Proof.
  unfold lookup. intros H. apply find_some in H.
  destruct H as [H1 H2]. apply Z.eqb_eq in H2. tauto.
Qed.

Lemma name_taken_spec (db : list Product.t) (n : string) :
  name_taken db n = true <-> In n (map Product.name db).
Proof.
  unfold name_taken. rewrite existsb_exists, in_map_iff.
  split; intros [r [H1 H2]]; exists r.
  - apply String.eqb_eq in H2. tauto.
  - split; [tauto|]. apply String.eqb_eq. tauto.
Qed.

Lemma existsb_map_load (f : Instance.t -> bool) (db : list Product.t) :
  existsb f (map load db) = existsb (fun r => f (load r)) db.
Proof.
  induction db as [|r db IH]; cbn [map existsb]; [reflexivity|].
  rewrite IH. reflexivity.
Qed.

Lemma existsb_ext_in {A : Type} (f g : A -> bool) (l : list A) :
  (forall x, In x l -> f x = g x) -> existsb f l = existsb g l.
Proof.
  induction l as [|x l IH]; cbn [existsb]; intros H; [reflexivity|].
  rewrite (H x) by (left; reflexivity).
  rewrite IH by (intros; apply H; right; assumption).
  reflexivity.
Qed.

Lemma forallb_ext_in {A : Type} (f g : A -> bool) (l : list A) :
  (forall x, In x l -> f x = g x) -> forallb f l = forallb g l.
Proof.
  induction l as [|x l IH]; cbn [forallb]; intros H; [reflexivity|].
  rewrite (H x) by (left; reflexivity).
  rewrite IH by (intros; apply H; right; assumption).
  reflexivity.
Qed.

(** The uniqueness check of a freshly added object: only its own name
    can clash, and only with a stored row. *)
Lemma name_clash_added (db : list Product.t) (product : ProductCreate.t) :
  name_clash (map load db ++ [load (new_row db product)])
    (load (new_row db product))
  = name_taken db (ProductCreate.name product).
Proof.
  unfold name_clash. rewrite existsb_app, existsb_map_load.
  cbn [existsb]. rewrite Z.eqb_refl. cbn [negb andb orb].
  rewrite orb_false_r. unfold name_taken.
  apply existsb_ext_in. intros r Hr.
  cbn [load new_row Instance.id Instance.name Product.id opt_eqb].
  destruct (Z.eqb_spec (Product.id r) (next_rowid (map load db))) as [E|E].
  - exfalso. apply (next_rowid_fresh db). rewrite <- E. apply in_map, Hr.
  - reflexivity.
Qed.

Lemma unique_ok_added (db : list Product.t) (product : ProductCreate.t) :
  unique_ok (map load db ++ [load (new_row db product)])
    (next_rowid (map load db))
  = negb (name_taken db (ProductCreate.name product)).
Proof.
  unfold unique_ok. rewrite forallb_app.
  cbn [forallb]. rewrite name_clash_added.
  change (Instance.id (load (new_row db product)))
    with (next_rowid (map load db)).
  rewrite Z.eqb_refl. cbn [negb orb]. rewrite andb_true_r.
  replace (forallb _ (map load db)) with true; [reflexivity|].
  symmetry. apply forallb_forall. intros o Ho.
  apply id_below_next_rowid in Ho.
  destruct (Z.eqb_spec (Instance.id o) (next_rowid (map load db)));
    [lia|reflexivity].
Qed.

End SessionFacts.

(** ** What each handler does to a fresh session *)

Lemma truthy_spec (s : string) : truthy s = true <-> s <> "".
Proof. destruct s; simpl; split; congruence. Qed.

Lemma int64_spec (z : Z) :
  int64 z = true <-> -9223372036854775808 <= z < 9223372036854775808.
Proof.
  unfold int64. rewrite andb_true_iff, Z.leb_le, Z.ltb_lt. tauto.
Qed.

Lemma ProductResponse_load (r : Product.t) :
  ProductResponse (load r) =
  match respond_all [r] with
  | inr _ => inr r
  | inl e => inl e
  end.
Proof.
  unfold ProductResponse, ProductResponses. cbn [store_all].
  rewrite store_load. unfold respond_all.
  destruct (forallb presentable [r]); [|reflexivity].
  destruct (forallb _ [r]); reflexivity.
Qed.

Lemma ProductResponses_load (db : list Product.t) :
  ProductResponses (map load db) = respond_all db.
Proof. unfold ProductResponses. rewrite store_all_load. reflexivity. Qed.

Lemma respond_OK (r b : Product.t) :
  respond r = OK b ->
  b = r /\ presentable r = true /\ finite (Product.price r) = true.
Proof.
  unfold respond, respond_all. cbn [forallb]. rewrite !andb_true_r.
  destruct (presentable r); [|discriminate].
  destruct (finite (Product.price r)); [|discriminate].
  intros H. injection H as <-. tauto.
Qed.

Lemma respond_presentable (r : Product.t) :
  presentable r = true -> finite (Product.price r) = true -> respond r = OK r.
Proof.
  intros Hp Hf. unfold respond, respond_all. cbn [forallb].
  rewrite Hp, Hf. reflexivity.
Qed.

Lemma respond_not_Error (r : Product.t) (c : Z) (d : string) :
  respond r <> Error c d.
Proof.
  unfold respond. destruct (respond_all [r]); discriminate.
Qed.

Lemma create_product_run (product : ProductCreate.t) (db : list Product.t) :
  create_product product (SessionLocal db) =
  if truthy (ProductCreate.name product)
  then if int64 (ProductCreate.quantity product)
       then if name_taken db (ProductCreate.name product)
            then (inl (HTTPException 400
                         "Product creation failed due to duplicate name."),
                  SessionLocal db)
            else if int64 (next_rowid (map load db))
                 then (inr (load (new_row db product)),
                       SessionLocal (db ++ [new_row db product]))
                 else (inl OperationalError, pending_insert db product)
       else (inl OverflowError, pending_insert db product)
  else (inl (HTTPException 400 "Product name is required"), SessionLocal db).
Proof.
  unfold create_product, try_except, bind.
  destruct (truthy (ProductCreate.name product)); [|reflexivity].
  cbn [ret raise db_add SessionLocal objects table written bound app].
  unfold db_commit, flush.
  cbn [objects written bound forallb].
  change (Instance.mk (next_rowid (map load db))
            (Some (ProductCreate.name product))
            (Some (ProductCreate.price product))
            (Some (ProductCreate.quantity product))
            (ProductCreate.description product)
            (ProductCreate.category product))
    with (load (new_row db product)).
  rewrite !andb_true_r.
  destruct (int64 (ProductCreate.quantity product)); [|reflexivity].
  rewrite (unique_ok_added db product).
  destruct (name_taken db (ProductCreate.name product)); cbn [negb].
  - reflexivity.
  - rewrite (store_all_app _ _ db [new_row db product] (store_all_load db))
      by (cbn [store_all]; rewrite store_load; reflexivity).
    destruct (int64 (next_rowid (map load db))); [|reflexivity].
    unfold db_refresh. cbn [SessionLocal table].
    change (next_rowid (map load db)) with (Product.id (new_row db product)).
    change (find (fun r => Product.id r =? Product.id (new_row db product))
              (db ++ [new_row db product]))
      with (lookup (db ++ [new_row db product]) (Product.id (new_row db product))).
    rewrite lookup_app_fresh by apply next_rowid_fresh.
    reflexivity.
Qed.

Lemma assign_id (kv : item) (o : Instance.t) :
  Instance.id (assign kv o) = Instance.id o.
Proof. destruct kv; reflexivity. Qed.

Lemma patch_eq (u : ProductUpdate.t) (o : Instance.t) :
  patch u o =
  Instance.mk (Instance.id o)
    (match ProductUpdate.name u with Some v => v | None => Instance.name o end)
    (match ProductUpdate.price u with Some v => v | None => Instance.price o end)
    (match ProductUpdate.quantity u with Some v => v | None => Instance.quantity o end)
    (match ProductUpdate.description u with
     | Some v => v | None => Instance.description o end)
    (match ProductUpdate.category u with
     | Some v => v | None => Instance.category o end).
Proof.
  destruct u as [[n|] [p|] [q|] [d|] [c|]]; destruct o; reflexivity.
Qed.

Lemma patch_id (u : ProductUpdate.t) (o : Instance.t) :
  Instance.id (patch u o) = Instance.id o.
Proof. rewrite patch_eq. reflexivity. Qed.

Lemma for_items_run (product_id : Z) (kvs : list item) (s : Session) :
  for_items product_id kvs s =
  (inr tt,
   mkSession (table s)
     (map (fun o => if Instance.id o =? product_id
                    then fold_left (fun o' kv => assign kv o') kvs o else o)
          (objects s))
     (repeat product_id (List.length kvs) ++ written s)
     (bound s ++ flat_map item_bound kvs)).
Proof.
  revert s. induction kvs as [|kv kvs IH]; intros s.
  - cbn [for_items ret fold_left List.length repeat app flat_map].
    rewrite app_nil_r.
    rewrite (map_ext _ (fun o => o)), map_id; [destruct s; reflexivity|].
    intros o. destruct (Instance.id o =? product_id); reflexivity.
  - cbn [for_items]. unfold bind. cbn [setattr]. rewrite IH.
    cbn [table objects written bound fold_left List.length flat_map].
    rewrite map_map, <- app_assoc. f_equal. f_equal.
    + apply map_ext. intros o.
      destruct (Z.eqb_spec (Instance.id o) product_id) as [E|E].
      * rewrite assign_id. rewrite (proj2 (Z.eqb_eq _ _) E). reflexivity.
      * rewrite (proj2 (Z.eqb_neq _ _) E). reflexivity.
    + cbn [repeat]. rewrite repeat_cons, <- app_assoc. reflexivity.
Qed.

Lemma update_product_run (product_id : Z) (product : ProductUpdate.t)
  (db : list Product.t) :
  update_product product_id product (SessionLocal db) =
  if int64 product_id
  then
    match lookup db product_id with
    | None => (inl (HTTPException 404 "Product not found"), SessionLocal db)
    | Some _ =>
        match field_check product with
        | Some e => (inl e, SessionLocal db)
        | None =>
            match flush (pending_update product_id product db) with
            | inr rows =>
                (match lookup rows product_id with
                 | Some r => inr (load r)
                 | None => inl InvalidRequestError
                 end, SessionLocal rows)
            | inl IntegrityError =>
                (inl (HTTPException 400
                        "Product update failed due to integrity error."),
                 SessionLocal db)
            | inl e => (inl e, pending_update product_id product db)
            end
        end
    end
  else (inl OverflowError, SessionLocal db).
Proof.
  unfold update_product, try_except, bind at 1. unfold db_first.
  destruct (int64 product_id); [|reflexivity].
  cbn [SessionLocal objects]. rewrite find_load.
  destruct (lookup db product_id) as [r|]; cbn [option_map]; [|reflexivity].
  unfold field_check.
  destruct (ProductUpdate.price product) as [[p|]|];
    [destruct (float_le p zero)| |];
    try reflexivity;
    (destruct (ProductUpdate.quantity product) as [[q|]|];
     [destruct (q <? 0)| |];
     try reflexivity).
  all: unfold bind; cbn [ret]; rewrite for_items_run.
  all: cbn [table objects written bound SessionLocal app]; rewrite app_nil_r.
  all: unfold db_commit; fold (patch product); fold (binds product).
  all: change (map (fun o => if Instance.id o =? product_id
                             then patch product o else o) (map load db))
         with (updated_objects product_id product db).
  all: fold (pending_update product_id product db).
  all: destruct (flush _) as [e|rows]; [destruct e; reflexivity|].
  all: unfold db_refresh; cbn [SessionLocal table]; fold (lookup rows product_id).
  all: destruct (lookup rows product_id); reflexivity.
Qed.

Lemma filter_map_load (f : Instance.t -> bool) (db : list Product.t) :
  filter f (map load db) = map load (filter (fun r => f (load r)) db).
Proof.
  induction db as [|r db IH]; cbn [map filter]; [reflexivity|].
  rewrite IH. destruct (f (load r)); reflexivity.
Qed.

Lemma get_product_run (product_id : Z) (db : list Product.t) :
  get_product product_id (SessionLocal db) =
  if int64 product_id
  then match lookup db product_id with
       | Some r => (inr (load r), SessionLocal db)
       | None => (inl (HTTPException 404 "Product not found"), SessionLocal db)
       end
  else (inl OverflowError, SessionLocal db).
Proof.
  unfold get_product, try_except, bind, db_first.
  destruct (int64 product_id); [|reflexivity].
  cbn [SessionLocal objects]. rewrite find_load.
  destruct (lookup db product_id); reflexivity.
Qed.

Lemma delete_product_run (product_id : Z) (db : list Product.t) :
  delete_product product_id (SessionLocal db) =
  if int64 product_id
  then match lookup db product_id with
       | Some _ =>
           (inr "Product deleted successfully",
            SessionLocal (filter (fun r => negb (Product.id r =? product_id)) db))
       | None => (inl (HTTPException 404 "Product not found"), SessionLocal db)
       end
  else (inl OverflowError, SessionLocal db).
Proof.
  unfold delete_product, try_except, bind, db_first.
  destruct (int64 product_id); [|reflexivity].
  cbn [SessionLocal objects]. rewrite find_load.
  destruct (lookup db product_id); cbn [option_map]; [|reflexivity].
  cbn [db_delete table objects written bound SessionLocal].
  unfold db_commit, flush.
  cbn [objects written bound forallb]. rewrite filter_map_load, store_all_load.
  reflexivity.
Qed.

Lemma list_products_run (price_gte : option float) (db : list Product.t) :
  list_products price_gte (SessionLocal db) =
  (inr (map load
          (match price_gte with
           | Some x => filter (fun r => float_ge (Product.price r) x) db
           | None => db
           end)),
   SessionLocal db).
Proof.
  unfold list_products, try_except, bind.
  destruct price_gte as [x|]; cbn [db_all SessionLocal objects].
  - rewrite filter_map_load. cbn [load Instance.price].
    destruct (map load _); reflexivity.
  - rewrite filter_map_load. cbn [filter].
    replace (filter (fun _ => true) db) with db.
    + destruct (map load db); reflexivity.
    + clear. induction db as [|r db IH]; cbn [filter]; congruence.
Qed.

(** ** The endpoints in closed form *)

Lemma serialise_load (r : Product.t) :
  match ProductResponse (load r) with
  | inr b => OK b
  | inl e => Unhandled e
  end = respond r.
Proof.
  rewrite ProductResponse_load. unfold respond.
  destruct (respond_all [r]); reflexivity.
Qed.

Lemma post_products_run (product : ProductCreate.t) (db : list Product.t) :
  post_products product db =
  if ProductCreate.valid product
  then if truthy (ProductCreate.name product)
       then if int64 (ProductCreate.quantity product)
            then if name_taken db (ProductCreate.name product)
                 then (Error 400 "Product creation failed due to duplicate name.",
                       db)
                 else if int64 (next_rowid (map load db))
                      then (respond (new_row db product),
                            db ++ [new_row db product])
                      else (Unhandled OperationalError, db)
            else (Unhandled OverflowError, db)
       else (Error 400 "Product name is required", db)
  else (unprocessable
          (rejected (fun x => float_gt x zero) (ProductCreate.price product)),
        db).
Proof.
  unfold post_products. destruct (ProductCreate.valid product); [|reflexivity].
  unfold request, get_db. rewrite create_product_run.
  destruct (truthy _); [|reflexivity].
  destruct (int64 (ProductCreate.quantity product)); [|reflexivity].
  destruct (name_taken _ _); [reflexivity|].
  destruct (int64 (next_rowid _)); [|reflexivity].
  rewrite serialise_load. reflexivity.
Qed.

Lemma get_products_id_run (product_id : Z) (db : list Product.t) :
  get_products_id product_id db =
  if int64 product_id
  then match lookup db product_id with
       | Some r => (respond r, db)
       | None => (Error 404 "Product not found", db)
       end
  else (Unhandled OverflowError, db).
Proof.
  unfold get_products_id, request, get_db. rewrite get_product_run.
  destruct (int64 product_id); [|reflexivity].
  destruct (lookup db product_id); [rewrite serialise_load|]; reflexivity.
Qed.

Lemma delete_products_id_run (product_id : Z) (db : list Product.t) :
  delete_products_id product_id db =
  if int64 product_id
  then match lookup db product_id with
       | Some _ =>
           (OK "Product deleted successfully",
            filter (fun r => negb (Product.id r =? product_id)) db)
       | None => (Error 404 "Product not found", db)
       end
  else (Unhandled OverflowError, db).
Proof.
  unfold delete_products_id, request, get_db. rewrite delete_product_run.
  destruct (int64 product_id); [|reflexivity].
  destruct (lookup db product_id); reflexivity.
Qed.

Lemma get_products_run (price_gte : option float) (db : list Product.t) :
  get_products price_gte db =
  if match price_gte with Some x => float_ge x zero | None => true end
  then (match respond_all
                (match price_gte with
                 | Some x => filter (fun r => float_ge (Product.price r) x) db
                 | None => db
                 end) with
        | inr rows => OK rows
        | inl e => Unhandled e
        end, db)
  else (Unprocessable, db).
Proof.
  unfold get_products.
  destruct (match price_gte with Some x => float_ge x zero | None => true end);
    [|reflexivity].
  unfold request, get_db.
  rewrite list_products_run, ProductResponses_load. reflexivity.
Qed.

Lemma lookup_None_iff (db : list Product.t) (product_id : Z) :
  lookup db product_id = None <-> ~ In product_id (map Product.id db).
Proof.
  split; [|apply lookup_fresh].
  intros H Hin. apply in_map_iff in Hin. destruct Hin as [r [E Hr]].
  unfold lookup in H.
  apply (find_none _ _ H) in Hr. rewrite E, Z.eqb_refl in Hr. discriminate.
Qed.

Lemma filter_other_ids (db : list Product.t) (product_id : Z) :
  ~ In product_id (map Product.id db) ->
  filter (fun r => negb (Product.id r =? product_id)) db = db.
Proof.
  induction db as [|r db IH]; cbn [map In filter]; intros H; [reflexivity|].
  destruct (Z.eqb_spec (Product.id r) product_id) as [E|E]; [tauto|].
  cbn [negb]. rewrite IH by tauto. reflexivity.
Qed.

(** What an accepted create has done, read off its response. *)
Lemma post_products_OK (product : ProductCreate.t) (db db' : list Product.t)
  (r : Product.t) :
  post_products product db = (OK r, db') ->
  r = new_row db product /\ db' = db ++ [r]
  /\ ProductCreate.valid product = true
  /\ ProductCreate.name product <> ""
  /\ ~ In (ProductCreate.name product) (map Product.name db)
  /\ int64 (Product.id r) = true
  /\ respond r = OK r.
Proof.
  rewrite post_products_run.
  destruct (ProductCreate.valid product);
    [|unfold unprocessable; destruct (forallb _ _); discriminate].
  destruct (truthy (ProductCreate.name product)) eqn:Ht; [|discriminate].
  destruct (int64 (ProductCreate.quantity product)); [|discriminate].
  destruct (name_taken db (ProductCreate.name product)) eqn:En; [discriminate|].
  destruct (int64 (next_rowid (map load db))) eqn:Ei; [|discriminate].
  intros H. injection H as H <-.
  destruct (respond_OK _ _ H) as [-> [Hp Hf]].
  repeat split.
  - apply truthy_spec, Ht.
  - intros Hin. apply name_taken_spec in Hin. congruence.
  - exact Ei.
  - apply respond_presentable; assumption.
Qed.

(** ** Create *)

(** C1 fails on the code. The create of [test_get_product], a payload
    with a name, the price 5.99 (the double 6744140441987318 * 2^-50), a
    quantity and neither description nor category, is stored and then
    answered with an unhandled
    [ResponseValidationError] (500) instead of the record:
    [ProductResponse] annotates [description] and [category] as [str],
    and the stored row holds [None] for both. *)
Theorem create_without_description_unhandled :
  let product :=
    ProductCreate.mk "Another Product" (double 6744140441987318 (-50)) 20 None None in
  ProductCreate.valid product = true
  /\ post_products product []
     = (Unhandled ResponseValidationError,
        [Product.mk 1 "Another Product" (double 6744140441987318 (-50)) 20 None None])
  /\ status (fst (post_products product [])) = 500.
Proof. repeat split; reflexivity. Qed.

(** X21. A create whose payload has a non-empty name no stored record
    carries, a finite price above 0, a quantity from 0 to 2^63 - 1, a
    description and a category succeeds in a table whose ids are within
    64 bits and below 2^63 - 1: it answers 200 with the submitted fields and an id no
    stored record has, and the table afterwards is the old one with
    exactly that record appended. *)
Theorem create_full_payload_succeeds
  (db : list Product.t) (product : ProductCreate.t) (d c : string) :
  ProductCreate.name product <> "" ->
  float_gt (ProductCreate.price product) zero = true ->
  finite (ProductCreate.price product) = true ->
  0 <= ProductCreate.quantity product < 9223372036854775808 ->
  ProductCreate.description product = Some d ->
  ProductCreate.category product = Some c ->
  ~ In (ProductCreate.name product) (map Product.name db) ->
  (forall r, In r db ->
             -9223372036854775808 <= Product.id r < 9223372036854775807) ->
  exists r : Product.t,
    post_products product db = (OK r, db ++ [r])
    /\ Product.name r = ProductCreate.name product
    /\ Product.price r = ProductCreate.price product
    /\ Product.quantity r = ProductCreate.quantity product
    /\ Product.description r = Some d
    /\ Product.category r = Some c
    /\ ~ In (Product.id r) (map Product.id db).
Proof.
  intros Hname Hprice Hfinite Hqty Hd Hc Hfree Hids.
  exists (new_row db product).
  repeat split; try assumption; try reflexivity; [|apply next_rowid_fresh].
  rewrite post_products_run. unfold ProductCreate.valid.
  rewrite Hprice, (proj2 (Z.leb_le _ _) (proj1 Hqty)). cbn [andb].
  rewrite (proj2 (truthy_spec _) Hname).
  rewrite (proj2 (int64_spec _)) by lia.
  destruct (name_taken db (ProductCreate.name product)) eqn:E.
  { exfalso. apply Hfree, name_taken_spec, E. }
  assert (Hnext : int64 (next_rowid (map load db)) = true).
  { apply int64_spec.
    pose proof (next_rowid_within db (-9223372036854775808)
                  9223372036854775807 ltac:(lia) Hids). lia. }
  rewrite Hnext. rewrite respond_presentable; [reflexivity| |exact Hfinite].
  unfold presentable. cbn [new_row Product.price Product.quantity
                           Product.description Product.category].
  rewrite Hprice, (proj2 (Z.leb_le _ _) (proj1 Hqty)), Hd, Hc. reflexivity.
Qed.

Lemma create_full_payload_succeeds_witness :
  exists r : Product.t,
    post_products
      (ProductCreate.mk "Test Product" (double 11 0) 100
         (Some "A test product") (Some "Test Category"))
      [Product.mk 1 "Widget" (double 1 0) 5 (Some "d") (Some "c")]
    = (OK r, [Product.mk 1 "Widget" (double 1 0) 5 (Some "d") (Some "c")] ++ [r])
    /\ Product.name r = "Test Product"
    /\ Product.price r = double 11 0
    /\ Product.quantity r = 100
    /\ Product.description r = Some "A test product"
    /\ Product.category r = Some "Test Category"
    /\ ~ In (Product.id r) [1].
Proof.
  apply (create_full_payload_succeeds
           [Product.mk 1 "Widget" (double 1 0) 5 (Some "d") (Some "c")]
           (ProductCreate.mk "Test Product" (double 11 0) 100
              (Some "A test product") (Some "Test Category"))
           "A test product" "Test Category").
  - discriminate.
  - reflexivity.
  - reflexivity.
  - simpl. lia.
  - reflexivity.
  - reflexivity.
  - simpl. intros [H|[]]. discriminate.
  - intros r [<-|[]]. simpl. lia.
Defined.






(** C6, as stated, fails: a create whose name is a single space, with a
    valid price and quantity, a description and a category, is not
    rejected; it answers 200 and a row is added. *)
Lemma create_whitespace_name_accepted :
  let product :=
    ProductCreate.mk " " (double 1 0) 0 (Some "d") (Some "c") in
  blank (ProductCreate.name product) = true
  /\ post_products product []
     = (OK (Product.mk 1 " " (double 1 0) 0 (Some "d") (Some "c")),
        [Product.mk 1 " " (double 1 0) 0 (Some "d") (Some "c")]).
Proof. split; reflexivity. Qed.

(** C6, amended. A create whose validated payload has the empty name is
    rejected with 400 "Product name is required" and no row is added; the
    handler raises before it touches the session, whatever its state. *)
Theorem create_empty_name_rejected
  (db : list Product.t) (product : ProductCreate.t) :
  ProductCreate.valid product = true ->
  ProductCreate.name product = "" ->
  post_products product db = (Error 400 "Product name is required", db)
  /\ forall s : Session,
       create_product product s
       = (inl (HTTPException 400 "Product name is required"), s).
Proof.
  intros Hvalid Hname. split.
  - rewrite post_products_run, Hvalid, Hname. reflexivity.
  - intros s. unfold create_product, try_except, bind.
    rewrite Hname. reflexivity.
Qed.

Lemma create_empty_name_rejected_witness :
  let db := [Product.mk 1 "Widget" (double 1 0) 5 (Some "d") (Some "c")] in
  let product := ProductCreate.mk "" (double 2 0) 7 (Some "d") (Some "c") in
  post_products product db = (Error 400 "Product name is required", db)
  /\ forall s : Session,
       create_product product s
       = (inl (HTTPException 400 "Product name is required"), s).
Proof.
  intros db product.
  apply (create_empty_name_rejected db product); reflexivity.
Defined.

(** ** Get, delete and list *)

Lemma lookup_removed (db : list Product.t) (product_id : Z) :
  lookup (filter (fun r => negb (Product.id r =? product_id)) db) product_id
  = None.
Proof.
  apply lookup_fresh. intros H. apply in_map_iff in H.
  destruct H as [r [E Hr]]. apply filter_In in Hr. destruct Hr as [_ Hr].
  rewrite (proj2 (Z.eqb_eq _ _) E) in Hr. discriminate.
Qed.

(** X1. A get of an id within 64 bits answers with the stored record of
    that id when the table has one (200 when the record fits
    [ProductResponse], an unhandled exception otherwise) and with 404
    "Product not found" exactly when no stored record has the id; a get
    of an id outside 64 bits ends in an unhandled [OverflowError]. The
    table is left as it was in every case. *)
Theorem get_product_found_or_not_found (db : list Product.t) (product_id : Z) :
  if int64 product_id
  then match lookup db product_id with
       | Some r =>
           get_products_id product_id db = (respond r, db)
           /\ In r db /\ Product.id r = product_id
           /\ (presentable r = true -> finite (Product.price r) = true ->
               get_products_id product_id db = (OK r, db))
       | None =>
           get_products_id product_id db = (Error 404 "Product not found", db)
           /\ ~ In product_id (map Product.id db)
       end
  else get_products_id product_id db = (Unhandled OverflowError, db).
Proof.
  rewrite get_products_id_run.
  destruct (int64 product_id); [|reflexivity].
  destruct (lookup db product_id) as [r|] eqn:E.
  - split; [reflexivity|]. destruct (lookup_In _ _ _ E) as [Hin Hid].
    repeat split; try assumption.
    intros Hp Hf. rewrite (respond_presentable r Hp Hf). reflexivity.
  - split; [reflexivity|]. apply lookup_None_iff, E.
Qed.

(** C8 fails on the code. For an id within 64 bits the claim holds:
    deleting a stored id removes every row with that id and nothing else
    and answers "Product deleted successfully", a get on that id
    afterwards is 404 "Product not found", and deleting an absent id is
    404 "Product not found" with the table unchanged. For an id outside
    64 bits, such as 2^63, which no record carries, delete and get end in
    an [OverflowError] that [except ValueError] does not catch, not in
    404. *)
Theorem delete_removes_record (db : list Product.t) (product_id : Z) :
  (if int64 product_id
   then match lookup db product_id with
        | Some _ =>
            let db' := filter (fun r => negb (Product.id r =? product_id)) db in
            delete_products_id product_id db
            = (OK "Product deleted successfully", db')
            /\ (forall r, In r db' <-> In r db /\ Product.id r <> product_id)
            /\ get_products_id product_id db'
               = (Error 404 "Product not found", db')
        | None =>
            delete_products_id product_id db
            = (Error 404 "Product not found", db)
        end
   else delete_products_id product_id db = (Unhandled OverflowError, db)
        /\ get_products_id product_id db = (Unhandled OverflowError, db))
  /\ delete_products_id 9223372036854775808 [] = (Unhandled OverflowError, []).
Proof.
  split; [|reflexivity].
  rewrite delete_products_id_run.
  destruct (int64 product_id) eqn:Hid.
  - destruct (lookup db product_id) as [r|]; [|reflexivity].
    cbn zeta. split; [reflexivity|]. split.
    + intros r'. rewrite filter_In, negb_true_iff, Z.eqb_neq. tauto.
    + rewrite get_products_id_run, Hid, lookup_removed. reflexivity.
  - rewrite get_products_id_run, Hid. split; reflexivity.
Qed.

(** X16. After a delete request for an id within 64 bits, whatever it
    answered, a second delete of that id and a get of that id both
    answer 404 "Product not found" and change nothing. *)
Theorem delete_twice_not_found (db : list Product.t) (product_id : Z) :
  int64 product_id = true ->
  let db' := snd (delete_products_id product_id db) in
  delete_products_id product_id db' = (Error 404 "Product not found", db')
  /\ get_products_id product_id db' = (Error 404 "Product not found", db').
Proof.
  intros Hid db'.
  assert (Hgone : lookup db' product_id = None).
  { subst db'. rewrite delete_products_id_run, Hid.
    destruct (lookup db product_id) eqn:E; cbn [snd];
      [apply lookup_removed|exact E]. }
  rewrite delete_products_id_run, get_products_id_run, Hid, Hgone.
  split; reflexivity.
Qed.

Lemma delete_twice_not_found_witness :
  let db := [Product.mk 1 "To Be Deleted" (double 9 0) 10 (Some "d") (Some "c");
             Product.mk 2 "Gadget" (double 3 0) 0 (Some "d") (Some "c")] in
  let db' := snd (delete_products_id 1 db) in
  delete_products_id 1 db' = (Error 404 "Product not found", db')
  /\ get_products_id 1 db' = (Error 404 "Product not found", db').
Proof.
  intros db.
  apply (delete_twice_not_found db 1). reflexivity.
Defined.

Lemma respond_all_total (rows : list Product.t) :
  (forall r, In r rows -> presentable r = true /\ finite (Product.price r) = true) ->
  respond_all rows = inr rows.
Proof.
  intros H. unfold respond_all.
  assert (Hp : forallb presentable rows = true)
    by (apply forallb_forall; intros r Hr; apply H, Hr).
  assert (Hf : forallb (fun r => finite (Product.price r)) rows = true)
    by (apply forallb_forall; intros r Hr; apply H, Hr).
  rewrite Hp, Hf. reflexivity.
Qed.

(** C9 fails on the code. After the create of [test_get_product] (no
    description, no category) the table holds its row, and the list
    operation, with or without a price filter that the row passes, ends
    in an unhandled [ResponseValidationError] (500) instead of returning
    the stored record: [list[ProductResponse]] does not admit the [None]
    description of the row. *)
Theorem list_without_description_unhandled :
  let db :=
    snd (post_products
           (ProductCreate.mk "Another Product" (double 6744140441987318 (-50)) 20 None None)
           []) in
  db = [Product.mk 1 "Another Product" (double 6744140441987318 (-50)) 20 None None]
  /\ get_products None db = (Unhandled ResponseValidationError, db)
  /\ get_products (Some (double 1 0)) db
     = (Unhandled ResponseValidationError, db).
Proof. repeat split; reflexivity. Qed.

(** X22. With a price filter of at least 0 the list operation selects
    exactly the stored records whose price is at least the filter, in
    table order, and without a filter every stored record; it answers
    200 with the selection when every selected record fits
    [ProductResponse] and has a finite price, in particular 200 with the
    empty list when nothing is selected. The table is never changed. *)
Theorem list_products_filters_by_price (db : list Product.t) (x : float) :
  float_ge x zero = true ->
  let selected := filter (fun r => float_ge (Product.price r) x) db in
  (forall r, In r selected <-> In r db /\ float_ge (Product.price r) x = true)
  /\ snd (get_products (Some x) db) = db
  /\ snd (get_products None db) = db
  /\ ((forall r, In r selected ->
         presentable r = true /\ finite (Product.price r) = true) ->
      get_products (Some x) db = (OK selected, db))
  /\ ((forall r, In r db ->
         presentable r = true /\ finite (Product.price r) = true) ->
      get_products None db = (OK db, db))
  /\ ((forall r, In r db -> float_ge (Product.price r) x = false) ->
      get_products (Some x) db = (OK [], db)).
Proof.
  intros Hx selected.
  split; [intros r; unfold selected; rewrite filter_In; tauto|].
  rewrite !get_products_run, Hx.
  split; [reflexivity|]. split; [reflexivity|].
  split; [|split].
  - intros H. fold selected. rewrite (respond_all_total _ H). reflexivity.
  - intros H. rewrite (respond_all_total _ H). reflexivity.
  - intros Hnone.
    assert (E : selected = []).
    { unfold selected. clear Hx selected.
      induction db as [|r db IH]; cbn [filter]; [reflexivity|].
      rewrite (Hnone r) by (left; reflexivity).
      apply IH. intros r' Hr'. apply Hnone. right. assumption. }
    fold selected. rewrite E. reflexivity.
Qed.

Lemma list_products_filters_by_price_witness :
  let db := [Product.mk 1 "Widget" (double 1 0) 5 (Some "d") (Some "c");
             Product.mk 2 "Gadget" (double 3 0) 0 (Some "d") (Some "c");
             Product.mk 3 "Gizmo" (double 5 (-1)) 2 (Some "d") (Some "c")] in
  get_products (Some (double 3 0)) db
  = (OK [Product.mk 2 "Gadget" (double 3 0) 0 (Some "d") (Some "c")], db).
Proof.
  intros db.
  destruct (list_products_filters_by_price db (double 3 0) eq_refl)
    as [_ [_ [_ [H _]]]].
  apply H. intros r [<-|[]]. split; reflexivity.
Defined.

(** ** Update *)

Lemma float_le_zero_not_gt (x : float) :
  float_le x zero = true -> float_gt x zero = false.
Proof.
  destruct x as [s|s| |s m e]; try destruct s; cbv; congruence.
Qed.

Lemma float_gt_zero_not_le (x : float) :
  float_gt x zero = true -> float_le x zero = false.
Proof.
  destruct x as [s|s| |s m e]; try destruct s; cbv; congruence.
Qed.

(** What the request model guarantees of a payload it accepts. *)
Lemma valid_fields (u : ProductUpdate.t) :
  ProductUpdate.valid u = true ->
  ProductUpdate.name u <> Some None
  /\ ProductUpdate.price u <> Some None
  /\ ProductUpdate.quantity u <> Some None
  /\ ProductUpdate.description u <> Some None
  /\ ProductUpdate.category u <> Some None
  /\ (forall x, ProductUpdate.price u = Some (Some x) -> float_gt x zero = true)
  /\ (forall q, ProductUpdate.quantity u = Some (Some q) -> 0 <= q).
Proof.
  unfold ProductUpdate.valid. destruct u as [n p q d c].
  cbn [ProductUpdate.name ProductUpdate.price ProductUpdate.quantity
       ProductUpdate.description ProductUpdate.category].
  rewrite !andb_true_iff. intros [[[[Hn Hp] Hq] Hd] Hc].
  destruct n as [[n|]|]; try discriminate;
    destruct p as [[p|]|]; try discriminate;
    destruct q as [[q|]|]; try discriminate;
    destruct d as [[d|]|]; try discriminate;
    destruct c as [[c|]|]; try discriminate.
  all: repeat split; try discriminate.
  all: try (intros x E; injection E as <-; exact Hp).
  all: try (intros x E; injection E as <-; apply Z.leb_le; exact Hq).
Qed.

(** A payload the request model accepts passes both field checks of the
    handler. *)
Lemma field_check_valid (u : ProductUpdate.t) :
  ProductUpdate.valid u = true -> field_check u = None.
Proof.
  intros Hv. destruct (valid_fields u Hv) as [_ [Hp [Hq [_ [_ [Hvp Hvq]]]]]].
  unfold field_check.
  assert (Hquantity :
    match ProductUpdate.quantity u with
    | Some None => Some TypeError
    | Some (Some q) =>
        if q <? 0
        then Some (HTTPException 400 "Quantity must be greater than or equal to 0")
        else None
    | None => None
    end = None).
  { destruct (ProductUpdate.quantity u) as [[q|]|]; [|congruence|reflexivity].
    specialize (Hvq q eq_refl).
    destruct (Z.ltb_spec q 0); [lia|reflexivity]. }
  destruct (ProductUpdate.price u) as [[p|]|]; [|congruence|exact Hquantity].
  rewrite (float_gt_zero_not_le p (Hvp p eq_refl)). exact Hquantity.
Qed.

(** C5 fails on the code. An update of an existing record that supplies
    the price -1 is answered with 422 by the request model
    ([Field(None, gt=0)]), not with the bad-request error 400 "Price must
    be greater than 0": the check of lines 105-106 that raises it is
    never reached by a request. *)
Theorem update_negative_price_unprocessable :
  let db := [Product.mk 1 "Widget" (double 1 0) 5 (Some "d") (Some "c")] in
  let product :=
    ProductUpdate.mk None (Some (Some (double (-1) 0))) None None None in
  float_le (double (-1) 0) zero = true
  /\ lookup db 1 = Some (Product.mk 1 "Widget" (double 1 0) 5 (Some "d") (Some "c"))
  /\ put_products_id 1 product db = (Unprocessable, db)
  /\ fst (put_products_id 1 product db)
     <> Error 400 "Price must be greater than 0".
Proof.
  intros db product.
  split; [reflexivity|]. split; [reflexivity|].
  split; [reflexivity|discriminate].
Qed.

(** X23. An update of an existing record that supplies a finite price of
    0 or less is rejected and the table is left as it was: the request model
    answers 422 before the handler runs; the handler's own check, for a
    payload that reaches it, raises 400 "Price must be greater than 0"
    with the session untouched. *)
Theorem update_nonpositive_price_rejected
  (db : list Product.t) (product_id : Z) (row : Product.t)
  (product : ProductUpdate.t) (x : float) :
  lookup db product_id = Some row ->
  int64 product_id = true ->
  ProductUpdate.price product = Some (Some x) ->
  float_le x zero = true ->
  finite x = true ->
  put_products_id product_id product db = (Unprocessable, db)
  /\ update_product product_id product (SessionLocal db)
     = (inl (HTTPException 400 "Price must be greater than 0"), SessionLocal db).
Proof.
  intros Hrow Hid Hprice Hx Hfin. split.
  - unfold put_products_id, ProductUpdate.valid.
    rewrite Hprice. cbn [ProductUpdate.field_ok].
    rewrite (float_le_zero_not_gt x Hx), andb_false_r. cbn [andb].
    unfold unprocessable, rejected.
    rewrite (float_le_zero_not_gt x Hx). cbn [forallb]. rewrite Hfin.
    reflexivity.
  - rewrite update_product_run, Hid, Hrow. unfold field_check.
    rewrite Hprice, Hx. reflexivity.
Qed.

Lemma update_nonpositive_price_rejected_witness :
  let db := [Product.mk 1 "Widget" (double 1 0) 5 (Some "d") (Some "c")] in
  let product := ProductUpdate.mk None (Some (Some zero)) None None None in
  put_products_id 1 product db = (Unprocessable, db)
  /\ update_product 1 product (SessionLocal db)
     = (inl (HTTPException 400 "Price must be greater than 0"), SessionLocal db).
Proof.
  intros db product.
  apply (update_nonpositive_price_rejected db 1
           (Product.mk 1 "Widget" (double 1 0) 5 (Some "d") (Some "c")) product zero);
    reflexivity.
Defined.

(** C10 fails on the code. Three requests end in an exception that no
    [except] clause catches and no [HTTPException] replaces (status 500):
    the create of [test_get_product], stored and then refused by the
    response model; a get of the id 2^63, which SQLite cannot bind; and a
    create with the quantity 2^63, which the insert cannot bind. *)
Theorem requests_end_unhandled :
  post_products
    (ProductCreate.mk "Another Product" (double 6744140441987318 (-50)) 20 None None) []
  = (Unhandled ResponseValidationError,
     [Product.mk 1 "Another Product" (double 6744140441987318 (-50)) 20 None None])
  /\ get_products_id 9223372036854775808 [] = (Unhandled OverflowError, [])
  /\ post_products
       (ProductCreate.mk "Widget" (double 1 0) 9223372036854775808
          (Some "d") (Some "c")) []
     = (Unhandled OverflowError, [])
  /\ status (fst (get_products_id 9223372036854775808 [])) = 500.
Proof. repeat split; reflexivity. Qed.

Section UpdateFacts.

Variable product_id : Z.
Variable u : ProductUpdate.t.

Lemma store_all_updated_inv (db rows : list Product.t) :
  store_all (updated_objects product_id u db) = Some rows ->
  Forall2 (updated_row product_id u) db rows.
Proof.
  unfold updated_objects, updated_row.
  revert rows. induction db as [|r db IH]; cbn [map store_all]; intros rows H.
  - injection H as <-. constructor.
  - change (Instance.id (load r)) with (Product.id r) in H.
    destruct (Product.id r =? product_id) eqn:E.
    + destruct (store (patch u (load r))) as [r'|] eqn:Er; [|discriminate].
      destruct (store_all _) as [rs|]; [|discriminate].
      injection H as <-. constructor; [rewrite E; exact Er|].
      apply IH. reflexivity.
    + rewrite store_load in H.
      destruct (store_all _) as [rs|]; [|discriminate].
      injection H as <-. constructor; [rewrite E; reflexivity|].
      apply IH. reflexivity.
Qed.

Lemma store_patch_fields (row row' : Product.t) :
  store (patch u (load row)) = Some row' ->
  retains u row row' /\ applied u row'.
Proof.
  rewrite patch_eq. unfold store, retains, applied.
  cbn [load Instance.id Instance.name Instance.price Instance.quantity
       Instance.description Instance.category].
  destruct u as [un up uq ud uc].
  cbn [ProductUpdate.name ProductUpdate.price ProductUpdate.quantity
       ProductUpdate.description ProductUpdate.category].
  destruct un as [[n|]|]; try discriminate;
    destruct up as [[p|]|]; try discriminate;
    destruct uq as [[q|]|]; try discriminate;
    intros H; injection H as <-;
    cbn [Product.id Product.name Product.price Product.quantity
         Product.description Product.category];
    repeat split; intros; subst; congruence.
Qed.

Lemma updated_row_id (r r' : Product.t) :
  updated_row product_id u r r' -> Product.id r' = Product.id r.
Proof.
  unfold updated_row. destruct (Product.id r =? product_id).
  - intros H. apply store_patch_fields in H. apply H.
  - intros ->. reflexivity.
Qed.

Lemma updated_lookup_other (db rows : list Product.t) (pk : Z) :
  Forall2 (updated_row product_id u) db rows ->
  pk <> product_id -> lookup rows pk = lookup db pk.
Proof.
  unfold lookup. intros H Hpk. induction H as [|r r' db rows Hr _ IH];
    cbn [find]; [reflexivity|].
  rewrite (updated_row_id r r' Hr).
  destruct (Z.eqb_spec (Product.id r) pk) as [E|E]; [|exact IH].
  unfold updated_row in Hr.
  rewrite (proj2 (Z.eqb_neq (Product.id r) product_id)) in Hr by congruence.
  congruence.
Qed.

Lemma updated_lookup_target (db rows : list Product.t) (row : Product.t) :
  Forall2 (updated_row product_id u) db rows ->
  lookup db product_id = Some row ->
  exists row', lookup rows product_id = Some row'
               /\ store (patch u (load row)) = Some row'.
Proof.
  unfold lookup. intros H. induction H as [|r r' db rows Hr _ IH];
    cbn [find]; [discriminate|].
  rewrite (updated_row_id r r' Hr).
  unfold updated_row in Hr.
  destruct (Product.id r =? product_id).
  - intros E. injection E as <-. exists r'. tauto.
  - exact IH.
Qed.

Lemma updated_frame (db rows : list Product.t) :
  Forall2 (updated_row product_id u) db rows ->
  Forall2 (fun r r' => Product.id r' = Product.id r
                       /\ (Product.id r <> product_id -> r' = r)) db rows.
Proof.
  intros H. induction H as [|r r' db rows Hr _ IH]; constructor; [|exact IH].
  split; [exact (updated_row_id r r' Hr)|].
  intros Hne. unfold updated_row in Hr.
  rewrite (proj2 (Z.eqb_neq _ _) Hne) in Hr. exact Hr.
Qed.

End UpdateFacts.

Lemma flush_stores (s : Session) (rows : list Product.t) :
  flush s = inr rows -> store_all (objects s) = Some rows.
Proof.
  unfold flush. destruct (forallb int64 (bound s)); [|discriminate].
  destruct (forallb _ (written s)); [|discriminate].
  destruct (store_all (objects s)) as [rs|]; [|discriminate].
  destruct (forallb int64 (written s)); [|discriminate].
  intros H. injection H as <-. reflexivity.
Qed.

Lemma flush_checked (s : Session) (rows : list Product.t) :
  flush s = inr rows -> forallb (unique_ok (objects s)) (written s) = true.
Proof.
  unfold flush. destruct (forallb int64 (bound s)); [|discriminate].
  destruct (forallb _ (written s)); [reflexivity|discriminate].
Qed.

Lemma flush_not_caught (s : Session) (e : exn) :
  flush s = inl e ->
  e = IntegrityError \/ e = OverflowError \/ e = OperationalError.
Proof.
  unfold flush. destruct (forallb int64 (bound s));
    [|intros H; injection H as <-; tauto].
  destruct (if forallb _ (written s) then store_all (objects s) else None);
    [|intros H; injection H as <-; tauto].
  destruct (forallb int64 (written s)); [discriminate|].
  intros H; injection H as <-; tauto.
Qed.

Lemma flush_keeps_target (product_id : Z) (u : ProductUpdate.t)
  (db rows : list Product.t) (row : Product.t) :
  flush (pending_update product_id u db) = inr rows ->
  lookup db product_id = Some row ->
  exists row', lookup rows product_id = Some row'
               /\ store (patch u (load row)) = Some row'.
Proof.
  intros Hflush Hrow. apply flush_stores in Hflush. cbn [pending_update objects] in Hflush.
  apply store_all_updated_inv in Hflush.
  exact (updated_lookup_target _ _ _ _ row Hflush Hrow).
Qed.

Lemma put_products_id_run (product_id : Z) (product : ProductUpdate.t)
  (db : list Product.t) :
  put_products_id product_id product db =
  if ProductUpdate.valid product
  then if int64 product_id
       then match lookup db product_id with
            | None => (Error 404 "Product not found", db)
            | Some _ =>
                match flush (pending_update product_id product db) with
                | inr rows =>
                    (match lookup rows product_id with
                     | Some r => respond r
                     | None => Unhandled InvalidRequestError
                     end, rows)
                | inl IntegrityError =>
                    (Error 400 "Product update failed due to integrity error.",
                     db)
                | inl e => (Unhandled e, db)
                end
            end
       else (Unhandled OverflowError, db)
  else (unprocessable
          match ProductUpdate.price product with
          | Some (Some x) => rejected (fun x => float_gt x zero) x
          | _ => []
          end,
        db).
Proof.
  unfold put_products_id.
  destruct (ProductUpdate.valid product) eqn:Hvalid; [|reflexivity].
  unfold request, get_db. rewrite update_product_run.
  destruct (int64 product_id); [|reflexivity].
  destruct (lookup db product_id); [|reflexivity].
  rewrite (field_check_valid product Hvalid).
  destruct (flush _) as [e|rows] eqn:Hflush.
  - destruct (flush_not_caught _ _ Hflush) as [ -> | [ -> | -> ] ]; reflexivity.
  - destruct (lookup rows product_id); [rewrite serialise_load|]; reflexivity.
Qed.

(** ** List facts *)

Section ListFacts.

Context {A B : Type}.

Lemma NoDup_map_inj_on (f : A -> B) (l : list A) (x y : A) :
  NoDup (map f l) -> In x l -> In y l -> f x = f y -> x = y.
Proof.
  induction l as [|a l IH]; cbn [map In]; intros Hnd Hx Hy E; [tauto|].
  apply NoDup_cons_iff in Hnd. destruct Hnd as [Ha Hnd].
  destruct Hx as [->|Hx], Hy as [->|Hy].
  - reflexivity.
  - exfalso. apply Ha. rewrite E. apply in_map, Hy.
  - exfalso. apply Ha. rewrite <- E. apply in_map, Hx.
  - apply IH; assumption.
Qed.

Lemma NoDup_map_filter (keep : A -> bool) (key : A -> B) (rows : list A)
  (Hnd : NoDup (map key rows)) :
  NoDup (map key (filter keep rows)).
Proof.
  induction rows as [|a rows IH]; cbn [map filter]; [constructor|].
  cbn [map] in Hnd. apply NoDup_cons_iff in Hnd. destruct Hnd as [Ha Hnd].
  destruct (keep a); [|apply IH, Hnd].
  cbn [map]. constructor; [|apply IH, Hnd].
  intros Hin. apply Ha. apply in_map_iff in Hin.
  destruct Hin as [x [E Hx]]. apply filter_In in Hx.
  rewrite <- E. apply in_map. tauto.
Qed.

Lemma Forall2_In_r (R : A -> B -> Prop) (l : list A) (l' : list B) (y : B) :
  Forall2 R l l' -> In y l' -> exists x, In x l /\ R x y.
Proof.
  intros H. induction H as [|a b l l' Hab _ IH]; cbn [In]; [tauto|].
  intros [<-|Hy].
  - exists a. tauto.
  - destruct (IH Hy) as [x [Hx Hr]]. exists x. tauto.
Qed.

Lemma forallb_repeat (f : A -> bool) (a : A) (n : nat) :
  forallb f (repeat a (S n)) = true -> f a = true.
Proof. cbn [repeat forallb]. intros H. apply andb_true_iff in H. tauto. Qed.

End ListFacts.

Lemma names_by_id_of_NoDup (db : list Product.t) :
  NoDup (map Product.name db) -> names_by_id db.
Proof.
  intros Hnd r1 r2 H1 H2 E.
  rewrite (NoDup_map_inj_on Product.name db r1 r2 Hnd H1 H2 E). reflexivity.
Qed.

Lemma NoDup_names_of (db : list Product.t) :
  NoDup (map Product.id db) -> names_by_id db -> NoDup (map Product.name db).
Proof.
  induction db as [|r db IH]; cbn [map]; intros Hid Hn; [constructor|].
  apply NoDup_cons_iff in Hid. destruct Hid as [Hr Hid].
  constructor.
  - intros Hin. apply in_map_iff in Hin. destruct Hin as [r2 [E H2]].
    apply Hr. rewrite <- (Hn r2 r (or_intror H2) (or_introl eq_refl) E).
    apply in_map, H2.
  - apply IH; [exact Hid|].
    intros r1 r2 H1 H2. apply Hn; right; assumption.
Qed.

Lemma unique_ok_clash (product_id : Z) (product : ProductUpdate.t)
  (db : list Product.t) (row other : Product.t) (n : string) :
  lookup db product_id = Some row ->
  ProductUpdate.name product = Some (Some n) ->
  In other db -> Product.id other <> product_id -> Product.name other = n ->
  unique_ok (updated_objects product_id product db) product_id = false.
Proof.
  intros Hrow Hname Hin Hid Hn.
  apply lookup_In in Hrow. destruct Hrow as [Hrow Hpk].
  set (os := updated_objects product_id product db).
  assert (Htarget : In (patch product (load row)) os).
  { unfold os, updated_objects. apply in_map_iff. exists (load row). split.
    - change (Instance.id (load row)) with (Product.id row).
      rewrite (proj2 (Z.eqb_eq _ _) Hpk). reflexivity.
    - apply in_map, Hrow. }
  assert (Hother : In (load other) os).
  { unfold os, updated_objects. apply in_map_iff. exists (load other). split.
    - change (Instance.id (load other)) with (Product.id other).
      rewrite (proj2 (Z.eqb_neq _ _) Hid). reflexivity.
    - apply in_map, Hin. }
  assert (Hclash : name_clash os (patch product (load row)) = true).
  { unfold name_clash. apply existsb_exists. exists (load other).
    split; [exact Hother|].
    rewrite patch_eq, Hname.
    cbn [load Instance.id Instance.name opt_eqb].
    rewrite Hpk, (proj2 (Z.eqb_neq _ _) Hid), Hn, String.eqb_refl.
    reflexivity. }
  destruct (unique_ok os product_id) eqn:E; [|reflexivity].
  unfold unique_ok in E. rewrite forallb_forall in E.
  specialize (E _ Htarget).
  rewrite patch_id in E. change (Instance.id (load row)) with (Product.id row) in E.
  rewrite (proj2 (Z.eqb_eq _ _) Hpk), Hclash in E. discriminate.
Qed.

Lemma store_all_total (os : list Instance.t) :
  (forall o, In o os -> store o <> None) ->
  exists rows, store_all os = Some rows.
Proof.
  induction os as [|o os IH]; cbn [store_all]; intros H.
  - exists []. reflexivity.
  - destruct (store o) as [r|] eqn:E.
    + destruct IH as [rows Hrows]; [intros o' Ho'; apply H; right; exact Ho'|].
      rewrite Hrows. exists (r :: rows). reflexivity.
    + exfalso. apply (H o); [left; reflexivity|exact E].
Qed.

Lemma forallb_repeat_same {A : Type} (f : A -> bool) (a : A) (n : nat) :
  f a = true -> forallb f (repeat a n) = true.
Proof.
  intros H. induction n as [|n IH]; cbn [repeat forallb]; [reflexivity|].
  rewrite H, IH. reflexivity.
Qed.

Lemma binds_eq (u : ProductUpdate.t) :
  binds u =
  match ProductUpdate.quantity u with
  | Some (Some q) => [q]
  | _ => []
  end.
Proof.
  unfold binds, items.
  destruct (ProductUpdate.name u), (ProductUpdate.price u),
    (ProductUpdate.quantity u) as [[q|]|], (ProductUpdate.description u),
    (ProductUpdate.category u); reflexivity.
Qed.

Lemma binds_fit (u : ProductUpdate.t) :
  ProductUpdate.valid u = true -> quantity_fits u ->
  forallb int64 (binds u) = true.
Proof.
  intros Hv Hfits. unfold quantity_fits in Hfits. rewrite binds_eq.
  destruct (valid_fields u Hv) as [_ [_ [_ [_ [_ [_ Hq]]]]]].
  destruct (ProductUpdate.quantity u) as [[q|]|]; try reflexivity.
  cbn [forallb]. rewrite andb_true_r. apply int64_spec.
  specialize (Hq q eq_refl). specialize (Hfits q eq_refl). lia.
Qed.

(** When the flush of an update goes through: the payload is one the
    request model accepts, its quantity fits 64 bits, and the name it
    supplies is carried by no record with another id, in a table whose
    names are distinct. *)
Lemma update_flush_accepted
  (db : list Product.t) (product_id : Z) (row : Product.t)
  (product : ProductUpdate.t) :
  lookup db product_id = Some row ->
  int64 product_id = true ->
  NoDup (map Product.name db) ->
  ProductUpdate.valid product = true ->
  quantity_fits product ->
  (forall n r, ProductUpdate.name product = Some (Some n) ->
               In r db -> Product.id r <> product_id -> Product.name r <> n) ->
  exists rows, flush (pending_update product_id product db) = inr rows.
Proof.
  intros Hrow Hid Hnames Hvalid Hfits Hfree.
  destruct (valid_fields product Hvalid) as [Hn [Hp [Hq _]]].
  set (os := updated_objects product_id product db).
  assert (Hsrc : forall o, In o os ->
             exists r, In r db
                       /\ o = if Product.id r =? product_id
                              then patch product (load r) else load r).
  { intros o Ho. unfold os, updated_objects in Ho.
    rewrite map_map in Ho. apply in_map_iff in Ho.
    destruct Ho as [r [E Hr]]. exists r. split; [exact Hr|].
    rewrite <- E. reflexivity. }
  assert (Hstore : exists rows, store_all os = Some rows).
  { apply store_all_total. intros o Ho.
    destruct (Hsrc o Ho) as [r [_ ->]].
    destruct (Product.id r =? product_id); [|rewrite store_load; discriminate].
    rewrite patch_eq. unfold store.
    cbn [load Instance.id Instance.name Instance.price Instance.quantity].
    destruct (ProductUpdate.name product) as [[n|]|]; [|congruence|];
      (destruct (ProductUpdate.price product) as [[p|]|]; [|congruence|]);
      (destruct (ProductUpdate.quantity product) as [[q|]|]; [|congruence|]);
      discriminate. }
  assert (Hunique : unique_ok os product_id = true).
  { unfold unique_ok. apply forallb_forall. intros o Ho.
    destruct (Z.eqb_spec (Instance.id o) product_id) as [Eo|Eo];
      [|reflexivity].
    cbn [negb orb]. apply negb_true_iff.
    destruct (name_clash os o) eqn:Hclash; [|reflexivity]. exfalso.
    unfold name_clash in Hclash. apply existsb_exists in Hclash.
    destruct Hclash as [o' [Ho' Hc]]. apply andb_true_iff in Hc.
    destruct Hc as [Hc1 Hc2]. apply negb_true_iff, Z.eqb_neq in Hc1.
    rewrite Eo in Hc1.
    destruct (Hsrc o Ho) as [r [Hr Er]]. destruct (Hsrc o' Ho') as [r' [Hr' Er']].
    assert (Hrid : Product.id r = product_id).
    { destruct (Z.eqb_spec (Product.id r) product_id) as [E|E]; [exact E|].
      subst o. exact Eo. }
    assert (Hr'id : Product.id r' <> product_id).
    { destruct (Z.eqb_spec (Product.id r') product_id) as [E|E]; [|exact E].
      subst o'. rewrite patch_id in Hc1. exact Hc1. }
    rewrite (proj2 (Z.eqb_eq _ _) Hrid) in Er.
    rewrite (proj2 (Z.eqb_neq _ _) Hr'id) in Er'.
    subst o o'. rewrite patch_eq in Hc2.
    cbn [load Instance.name opt_eqb] in Hc2.
    destruct (ProductUpdate.name product) as [[n|]|] eqn:En.
    - cbn [opt_eqb] in Hc2. apply String.eqb_eq in Hc2.
      exact (Hfree n r' eq_refl Hr' Hr'id Hc2).
    - congruence.
    - cbn [opt_eqb] in Hc2. apply String.eqb_eq in Hc2.
      apply Hr'id. rewrite <- Hrid.
      rewrite (NoDup_map_inj_on Product.name db r' r Hnames Hr' Hr Hc2).
      reflexivity. }
  destruct Hstore as [rows Hrows]. exists rows.
  unfold flush, pending_update. cbn [objects written bound]. fold os.
  rewrite (binds_fit product Hvalid Hfits).
  rewrite (forallb_repeat_same _ _ _ Hunique), Hrows.
  rewrite (forallb_repeat_same int64 _ _ Hid). reflexivity.
Qed.

(** C3. An update of an existing record, whatever the payload and
    whatever the outcome, leaves every record with another id exactly as
    it was and keeps, in the targeted record, the id and every field the
    payload does not supply; the targeted record is afterwards either
    untouched or carries every supplied value. The update is carried out,
    so that the stored record carries every supplied value, whenever the
    id is within 64 bits, the payload is one the request model accepts,
    its quantity is below 2^63, and the name it supplies is carried by no
    other record of a table with distinct names; the response is then the
    updated record passed through [ProductResponse]. *)
Theorem update_changes_only_supplied_fields
  (db : list Product.t) (product_id : Z) (row : Product.t) :
  lookup db product_id = Some row ->
  (forall product : ProductUpdate.t,
      let db' := snd (put_products_id product_id product db) in
      Forall2 (fun r r' => Product.id r' = Product.id r
                           /\ (Product.id r <> product_id -> r' = r)) db db'
      /\ (forall pk, pk <> product_id -> lookup db' pk = lookup db pk)
      /\ exists row',
           lookup db' product_id = Some row'
           /\ retains product row row'
           /\ (row' = row \/ applied product row'))
  /\ (forall product : ProductUpdate.t,
         int64 product_id = true ->
         NoDup (map Product.name db) ->
         ProductUpdate.valid product = true ->
         quantity_fits product ->
         (forall n r, ProductUpdate.name product = Some (Some n) ->
                      In r db -> Product.id r <> product_id ->
                      Product.name r <> n) ->
         exists row',
           lookup (snd (put_products_id product_id product db)) product_id
           = Some row'
           /\ applied product row'
           /\ fst (put_products_id product_id product db) = respond row').
Proof.
  intros Hrow. split.
  - intros product db'.
    assert (Hsame : db' = db ->
               Forall2 (fun r r' => Product.id r' = Product.id r
                                    /\ (Product.id r <> product_id -> r' = r))
                 db db'
               /\ (forall pk, pk <> product_id -> lookup db' pk = lookup db pk)
               /\ exists row',
                    lookup db' product_id = Some row'
                    /\ retains product row row'
                    /\ (row' = row \/ applied product row')).
    { intros ->. split; [|split].
      - clear. induction db; constructor; tauto.
      - reflexivity.
      - exists row. split; [exact Hrow|]. split; [|left; reflexivity].
        unfold retains. tauto. }
    subst db'. rewrite put_products_id_run in *.
    destruct (ProductUpdate.valid product); [|apply Hsame; reflexivity].
    destruct (int64 product_id); [|apply Hsame; reflexivity].
    rewrite Hrow in *.
    destruct (flush _) as [e|rows] eqn:Hflush.
    { destruct e; apply Hsame; reflexivity. }
    cbn [snd].
    destruct (flush_keeps_target _ _ _ _ row Hflush Hrow) as [row' [Hl Hs]].
    apply flush_stores in Hflush. cbn [pending_update objects] in Hflush.
    apply store_all_updated_inv in Hflush.
    split; [exact (updated_frame _ _ _ _ Hflush)|].
    split; [intros pk Hpk; exact (updated_lookup_other _ _ _ _ pk Hflush Hpk)|].
    exists row'. apply store_patch_fields in Hs.
    split; [exact Hl|]. split; [tauto|right; tauto].
  - intros product Hid Hnames Hvalid Hfits Hfree.
    destruct (update_flush_accepted db product_id row product
                Hrow Hid Hnames Hvalid Hfits Hfree) as [rows Hflush].
    destruct (flush_keeps_target _ _ _ _ row Hflush Hrow) as [row' [Hl Hs]].
    rewrite put_products_id_run, Hvalid, Hid, Hrow, Hflush, Hl.
    cbn [fst snd]. exists row'. apply store_patch_fields in Hs.
    split; [exact Hl|]. split; [tauto|reflexivity].
Qed.

Lemma update_changes_only_supplied_fields_witness :
  let db := [Product.mk 1 "Widget" (double 1 0) 5 (Some "blue") (Some "tools");
             Product.mk 2 "Gadget" (double 3 0) 0 (Some "d") (Some "c")] in
  let product := ProductUpdate.mk None None (Some (Some 10)) None None in
  exists row',
    lookup (snd (put_products_id 1 product db)) 1 = Some row'
    /\ applied product row'
    /\ fst (put_products_id 1 product db) = respond row'.
Proof.
  intros db product.
  destruct (update_changes_only_supplied_fields db 1
              (Product.mk 1 "Widget" (double 1 0) 5 (Some "blue") (Some "tools"))
              eq_refl) as [_ H].
  apply (H product).
  - reflexivity.
  - repeat constructor; simpl; intuition discriminate.
  - reflexivity.
  - intros q E. injection E as <-. lia.
  - intros n r E. discriminate.
Defined.

Example update_quantity_only_example :
  snd (put_products_id 1 (ProductUpdate.mk None None (Some (Some 10)) None None)
         [Product.mk 1 "Widget" (double 1 0) 5 (Some "blue") (Some "tools");
          Product.mk 2 "Gadget" (double 3 0) 0 (Some "d") (Some "c")])
  = [Product.mk 1 "Widget" (double 1 0) 10 (Some "blue") (Some "tools");
     Product.mk 2 "Gadget" (double 3 0) 0 (Some "d") (Some "c")].
Proof. reflexivity. Qed.

(** C7, as stated, fails: an update that would give record 1 the name of
    record 2 and also supplies [null] for the description is answered
    422 by the request model, not 400 with the integrity message. *)
Lemma update_collision_null_unprocessable :
  let db := [Product.mk 1 "Widget" (double 1 0) 5 (Some "d") (Some "c");
             Product.mk 2 "Gadget" (double 3 0) 0 (Some "d") (Some "c")] in
  let product :=
    ProductUpdate.mk (Some (Some "Gadget")) None None (Some None) None in
  put_products_id 1 product db = (Unprocessable, db)
  /\ fst (put_products_id 1 product db)
     <> Error 400 "Product update failed due to integrity error.".
Proof.
  intros db product. split; [reflexivity|discriminate].
Qed.

(** C7, amended. An update of an existing record (id within 64 bits)
    whose payload is one the request model accepts, with a quantity below
    2^63, and sets the name to the name of a stored record with another
    id fails with 400 "Product update failed due to integrity error.";
    the handler leaves the session rolled back to the committed rows, and
    the table is exactly what it was before the request. *)
Theorem update_name_collision_rejected
  (db : list Product.t) (product_id : Z) (row other : Product.t)
  (product : ProductUpdate.t) (n : string) :
  lookup db product_id = Some row ->
  int64 product_id = true ->
  ProductUpdate.valid product = true ->
  quantity_fits product ->
  ProductUpdate.name product = Some (Some n) ->
  In other db -> Product.id other <> product_id -> Product.name other = n ->
  put_products_id product_id product db
  = (Error 400 "Product update failed due to integrity error.", db)
  /\ snd (update_product product_id product (SessionLocal db))
     = SessionLocal db.
Proof.
  intros Hrow Hid Hvalid Hfits Hname Hin Hother Hn.
  assert (Hflush : flush (pending_update product_id product db)
                   = inl IntegrityError).
  { unfold flush, pending_update. cbn [objects written bound].
    rewrite (binds_fit product Hvalid Hfits).
    unfold items at 1. rewrite Hname.
    cbn [opt_item app List.length repeat forallb].
    rewrite (unique_ok_clash product_id product db row other n
               Hrow Hname Hin Hother Hn).
    reflexivity. }
  split.
  - rewrite put_products_id_run, Hvalid, Hid, Hrow, Hflush. reflexivity.
  - rewrite update_product_run, Hid, Hrow.
    rewrite (field_check_valid product Hvalid), Hflush. reflexivity.
Qed.

Lemma update_name_collision_rejected_witness :
  let db := [Product.mk 1 "Widget" (double 1 0) 5 (Some "d") (Some "c");
             Product.mk 2 "Gadget" (double 3 0) 0 (Some "d") (Some "c")] in
  let product :=
    ProductUpdate.mk (Some (Some "Gadget")) (Some (Some (double 2 0)))
      None None None in
  put_products_id 1 product db
  = (Error 400 "Product update failed due to integrity error.", db)
  /\ snd (update_product 1 product (SessionLocal db)) = SessionLocal db.
Proof.
  intros db product.
  apply (update_name_collision_rejected db 1
           (Product.mk 1 "Widget" (double 1 0) 5 (Some "d") (Some "c"))
           (Product.mk 2 "Gadget" (double 3 0) 0 (Some "d") (Some "c"))
           product "Gadget").
  - reflexivity.
  - reflexivity.
  - reflexivity.
  - intros q E. discriminate.
  - reflexivity.
  - simpl. tauto.
  - simpl. lia.
  - reflexivity.
Defined.

(** ** Requests in sequence *)

(** X2. A record that a create has just returned is the record a get on
    its id returns, and the get leaves the table as the create left it. *)
Theorem get_after_create (product : ProductCreate.t) (db db' : list Product.t)
  (r : Product.t) :
  post_products product db = (OK r, db') ->
  get_products_id (Product.id r) db' = (OK r, db').
Proof.
  intros H. apply post_products_OK in H.
  destruct H as [Hr [Hdb' [_ [_ [_ [Hid Hok]]]]]].
  rewrite get_products_id_run, Hid. subst db'.
  rewrite lookup_app_fresh; [rewrite Hok; reflexivity|].
  subst r. apply next_rowid_fresh.
Qed.

Lemma get_after_create_witness :
  let product :=
    ProductCreate.mk "Gadget" (double 3 0) 2 (Some "small") (Some "tools") in
  let db := [Product.mk 4 "Widget" (double 1 0) 5 (Some "d") (Some "c")] in
  let r := Product.mk 5 "Gadget" (double 3 0) 2 (Some "small") (Some "tools") in
  get_products_id (Product.id r) (db ++ [r]) = (OK r, db ++ [r]).
Proof.
  intros product db r.
  apply (get_after_create product db (db ++ [r]) r). reflexivity.
Defined.

(** X3. Deleting the record a create has just returned gives back the
    table the create started from, and a get on that id is then 404. *)
Theorem delete_after_create (product : ProductCreate.t)
  (db db' : list Product.t) (r : Product.t) :
  post_products product db = (OK r, db') ->
  delete_products_id (Product.id r) db'
  = (OK "Product deleted successfully", db)
  /\ get_products_id (Product.id r) db = (Error 404 "Product not found", db).
Proof.
  intros H. apply post_products_OK in H.
  destruct H as [Hr [Hdb' [_ [_ [_ [Hid _]]]]]].
  assert (Hfresh : ~ In (Product.id r) (map Product.id db))
    by (subst r; apply next_rowid_fresh).
  split.
  - rewrite delete_products_id_run, Hid. subst db'.
    rewrite lookup_app_fresh by exact Hfresh.
    rewrite filter_app, filter_other_ids by exact Hfresh.
    cbn [filter]. rewrite Z.eqb_refl. cbn [negb]. rewrite app_nil_r.
    reflexivity.
  - rewrite get_products_id_run, Hid, lookup_fresh by exact Hfresh.
    reflexivity.
Qed.

Lemma delete_after_create_witness :
  let product :=
    ProductCreate.mk "To Be Deleted" (double 9 0) 10 (Some "d") (Some "c") in
  let db := [Product.mk 4 "Widget" (double 1 0) 5 (Some "d") (Some "c")] in
  let r := Product.mk 5 "To Be Deleted" (double 9 0) 10 (Some "d") (Some "c") in
  delete_products_id (Product.id r) (db ++ [r])
  = (OK "Product deleted successfully", db)
  /\ get_products_id (Product.id r) db = (Error 404 "Product not found", db).
Proof.
  intros product db r.
  apply (delete_after_create product db (db ++ [r]) r). reflexivity.
Defined.

(** X4. A create sent to the table an accepted create has just left, with
    the same name, a valid price and a quantity from 0 to 2^63 - 1, is
    refused with 400 and the duplicate-name message, and adds nothing. *)
Theorem create_twice_rejected (product again : ProductCreate.t)
  (db db' : list Product.t) (r : Product.t) :
  post_products product db = (OK r, db') ->
  ProductCreate.valid again = true ->
  ProductCreate.quantity again < 9223372036854775808 ->
  ProductCreate.name again = ProductCreate.name product ->
  post_products again db'
  = (Error 400 "Product creation failed due to duplicate name.", db').
Proof.
  intros H Hvalid Hfits Hname. apply post_products_OK in H.
  destruct H as [Hr [Hdb' [_ [Hne _]]]].
  rewrite post_products_run, Hvalid, Hname.
  rewrite (proj2 (truthy_spec _) Hne).
  assert (Hq : int64 (ProductCreate.quantity again) = true).
  { apply int64_spec. unfold ProductCreate.valid in Hvalid.
    apply andb_true_iff in Hvalid. destruct Hvalid as [_ Hq].
    apply Z.leb_le in Hq. lia. }
  rewrite Hq.
  assert (Htaken : name_taken db' (ProductCreate.name product) = true).
  { apply name_taken_spec. subst db' r. rewrite map_app. apply in_or_app.
    right. left. reflexivity. }
  rewrite Htaken. reflexivity.
Qed.

Lemma create_twice_rejected_witness :
  let product :=
    ProductCreate.mk "Duplicate Product" (double 13 0) 50 (Some "d") (Some "c") in
  let again := ProductCreate.mk "Duplicate Product" (double 16 0) 60 (Some "d") (Some "c") in
  let r :=
    Product.mk 1 "Duplicate Product" (double 13 0) 50 (Some "d") (Some "c") in
  post_products again [r]
  = (Error 400 "Product creation failed due to duplicate name.", [r]).
Proof.
  intros product again r.
  apply (create_twice_rejected product again [] [r] r);
    [reflexivity|reflexivity|simpl; lia|reflexivity].
Defined.

(** X20. A create whose price is finite and 0 or less, or whose price is
    finite and whose quantity is below 0, is answered 422 by the request
    model before the handler runs, whatever its name (empty or already
    stored included), and adds no row. *)
Theorem create_invalid_number_unprocessable
  (db : list Product.t) (product : ProductCreate.t) :
  float_le (ProductCreate.price product) zero = true
  \/ ProductCreate.quantity product < 0 ->
  finite (ProductCreate.price product) = true ->
  post_products product db = (Unprocessable, db).
Proof.
  intros H Hfin.
  assert (Hinvalid : ProductCreate.valid product = false).
  { unfold ProductCreate.valid. destruct H as [H|H].
    - rewrite (float_le_zero_not_gt _ H). reflexivity.
    - rewrite (proj2 (Z.leb_gt _ _) H), andb_false_r. reflexivity. }
  unfold post_products. rewrite Hinvalid.
  unfold unprocessable, rejected.
  destruct (float_gt (ProductCreate.price product) zero); cbn [forallb];
    [|rewrite Hfin]; reflexivity.
Qed.

Lemma create_invalid_number_unprocessable_witness :
  let db := [Product.mk 1 "Widget" (double 1 0) 5 (Some "d") (Some "c")] in
  post_products (ProductCreate.mk "Widget" zero 5 (Some "d") (Some "c")) db
  = (Unprocessable, db)
  /\ post_products (ProductCreate.mk "" (double 1 0) (-1) (Some "d") (Some "c")) db
     = (Unprocessable, db).
Proof.
  intros db. split.
  - apply (create_invalid_number_unprocessable db); [left|]; reflexivity.
  - apply (create_invalid_number_unprocessable db); [right; simpl; lia|].
    reflexivity.
Defined.

(** ** Order of the checks of an update *)

(** X5. An update of an id within 64 bits that has no stored record
    answers 404 "Product not found" for every payload the request model
    accepts: the lookup comes before any assignment, and the table is
    left as it was. *)
Theorem update_missing_not_found (db : list Product.t) (product_id : Z)
  (product : ProductUpdate.t) :
  lookup db product_id = None ->
  int64 product_id = true ->
  ProductUpdate.valid product = true ->
  put_products_id product_id product db
  = (Error 404 "Product not found", db).
Proof.
  intros Hnone Hid Hvalid.
  rewrite put_products_id_run, Hvalid, Hid, Hnone. reflexivity.
Qed.

Lemma update_missing_not_found_witness :
  let db := [Product.mk 1 "Widget" (double 1 0) 5 (Some "d") (Some "c")] in
  put_products_id 999 (ProductUpdate.mk (Some (Some "Widget")) None
                         (Some (Some 3)) None None) db
  = (Error 404 "Product not found", db).
Proof.
  intros db.
  apply (update_missing_not_found db 999); reflexivity.
Defined.

(** X6. An update of an existing record that supplies a quantity below 0
    (and, if it supplies a price, a finite one) is answered 422 by the
    request model ([ge=0]) with the table unchanged. In the handler the
    price is tested first: past a [null] price it stops with [TypeError],
    past a price of 0 or less with the price message, and otherwise it
    raises 400 "Quantity must be greater than or equal to 0"; in each
    case before any assignment. *)
Theorem update_negative_quantity_rejected
  (db : list Product.t) (product_id : Z) (row : Product.t)
  (product : ProductUpdate.t) (q : Z) :
  lookup db product_id = Some row ->
  int64 product_id = true ->
  ProductUpdate.quantity product = Some (Some q) ->
  q < 0 ->
  (forall x, ProductUpdate.price product = Some (Some x) -> finite x = true) ->
  put_products_id product_id product db = (Unprocessable, db)
  /\ update_product product_id product (SessionLocal db)
     = (inl match ProductUpdate.price product with
            | Some None => TypeError
            | Some (Some p) =>
                if float_le p zero
                then HTTPException 400 "Price must be greater than 0"
                else HTTPException 400
                       "Quantity must be greater than or equal to 0"
            | None =>
                HTTPException 400 "Quantity must be greater than or equal to 0"
            end,
        SessionLocal db).
Proof.
  intros Hrow Hid Hq Hneg Hfin. split.
  - rewrite put_products_id_run.
    destruct (ProductUpdate.valid product) eqn:Hvalid.
    { destruct (valid_fields product Hvalid) as [_ [_ [_ [_ [_ [_ Hvq]]]]]].
      specialize (Hvq q Hq). lia. }
    unfold unprocessable, rejected.
    destruct (ProductUpdate.price product) as [[x|]|]; try reflexivity.
    destruct (float_gt x zero); cbn [forallb];
      [|rewrite (Hfin x eq_refl)]; reflexivity.
  - rewrite update_product_run, Hid, Hrow. unfold field_check. rewrite Hq.
    rewrite (proj2 (Z.ltb_lt _ _) Hneg).
    destruct (ProductUpdate.price product) as [[p|]|];
      [destruct (float_le p zero)| |]; reflexivity.
Qed.

Lemma update_negative_quantity_rejected_witness :
  let db := [Product.mk 1 "Widget" (double 1 0) 5 (Some "d") (Some "c")] in
  let product :=
    ProductUpdate.mk None (Some (Some (double 2 0))) (Some (Some (-3)))
      None None in
  put_products_id 1 product db = (Unprocessable, db)
  /\ update_product 1 product (SessionLocal db)
     = (inl (HTTPException 400 "Quantity must be greater than or equal to 0"),
        SessionLocal db).
Proof.
  intros db product.
  apply (update_negative_quantity_rejected db 1
           (Product.mk 1 "Widget" (double 1 0) 5 (Some "d") (Some "c")) product (-3));
    [reflexivity|reflexivity|reflexivity|lia|].
  intros x E. injection E as <-. reflexivity.
Defined.

(** ** Updates, read back and repeated *)

Lemma store_inv (o : Instance.t) (r : Product.t) :
  store o = Some r -> o = load r.
Proof.
  unfold store. destruct o as [i [n|] [p|] [q|] d c]; try discriminate.
  cbn. intros H. injection H as <-. reflexivity.
Qed.

Lemma store_all_inv (os : list Instance.t) (rows : list Product.t) :
  store_all os = Some rows -> os = map load rows.
Proof.
  revert rows. induction os as [|o os IH]; cbn [store_all]; intros rows H.
  - injection H as <-. reflexivity.
  - destruct (store o) as [r|] eqn:E; [|discriminate].
    destruct (store_all os) as [rs|]; [|discriminate].
    injection H as <-. cbn [map].
    rewrite (store_inv o r E), (IH rs eq_refl). reflexivity.
Qed.

Lemma patch_idem (u : ProductUpdate.t) (o : Instance.t) :
  patch u (patch u o) = patch u o.
Proof.
  rewrite !patch_eq.
  destruct u as [[n|] [p|] [q|] [d|] [c|]]; reflexivity.
Qed.

Lemma updated_objects_again (product_id : Z) (u : ProductUpdate.t)
  (db rows : list Product.t) :
  store_all (updated_objects product_id u db) = Some rows ->
  updated_objects product_id u rows = updated_objects product_id u db.
Proof.
  intros H. apply store_all_inv in H.
  unfold updated_objects at 1. rewrite <- H.
  unfold updated_objects. rewrite map_map. apply map_ext. intros o.
  destruct (Z.eqb_spec (Instance.id o) product_id) as [E|E].
  - rewrite patch_id, (proj2 (Z.eqb_eq _ _) E). apply patch_idem.
  - rewrite (proj2 (Z.eqb_neq _ _) E). reflexivity.
Qed.

(** What an accepted update has done, read off its response. *)
Lemma put_products_id_OK (product_id : Z) (product : ProductUpdate.t)
  (db db' : list Product.t) (r : Product.t) :
  put_products_id product_id product db = (OK r, db') ->
  ProductUpdate.valid product = true
  /\ int64 product_id = true
  /\ flush (pending_update product_id product db) = inr db'
  /\ lookup db' product_id = Some r
  /\ respond r = OK r.
Proof.
  rewrite put_products_id_run.
  destruct (ProductUpdate.valid product);
    [|unfold unprocessable; destruct (forallb _ _); discriminate].
  destruct (int64 product_id); [|discriminate].
  destruct (lookup db product_id); [|discriminate].
  destruct (flush _) as [e|rows]; [destruct e; discriminate|].
  destruct (lookup rows product_id) as [r'|] eqn:Hl; [|discriminate].
  intros H. injection H as H <-.
  destruct (respond_OK _ _ H) as [-> [Hp Hf]].
  repeat split; [exact Hl|]. apply respond_presentable; assumption.
Qed.

(** X11. An accepted update is idempotent: the same request sent again
    to the table it produced is accepted again, returns the same record
    and leaves that table as it is. *)
Theorem update_idempotent (product_id : Z) (product : ProductUpdate.t)
  (db db' : list Product.t) (r : Product.t) :
  put_products_id product_id product db = (OK r, db') ->
  put_products_id product_id product db' = (OK r, db').
Proof.
  intros H. apply put_products_id_OK in H.
  destruct H as [Hvalid [Hid [Hflush [Hl Hok]]]].
  rewrite put_products_id_run, Hvalid, Hid, Hl.
  assert (Hagain :
    flush (pending_update product_id product db') = inr db').
  { pose proof (flush_stores _ _ Hflush) as Hstore.
    cbn [pending_update objects] in Hstore.
    unfold flush, pending_update in *. cbn [objects written bound] in *.
    rewrite (updated_objects_again _ _ _ _ Hstore). exact Hflush. }
  rewrite Hagain, Hl, Hok. reflexivity.
Qed.

Lemma update_idempotent_witness :
  let db := [Product.mk 1 "Widget" (double 1 0) 5 (Some "d") (Some "c");
             Product.mk 2 "Gadget" (double 3 0) 0 (Some "d") (Some "c")] in
  let db' := [Product.mk 1 "Widget" (double 1 0) 5 (Some "d") (Some "c");
              Product.mk 2 "Gizmo" (double 3 0) 7 (Some "d") (Some "c")] in
  let product :=
    ProductUpdate.mk (Some (Some "Gizmo")) None (Some (Some 7)) None None in
  put_products_id 2 product db'
  = (OK (Product.mk 2 "Gizmo" (double 3 0) 7 (Some "d") (Some "c")), db').
Proof.
  intros db db' product.
  apply (update_idempotent 2 product db db'). reflexivity.
Defined.

(** X12. The record an accepted update returns is the record a get on
    that id returns afterwards. *)
Theorem get_after_update (product_id : Z) (product : ProductUpdate.t)
  (db db' : list Product.t) (r : Product.t) :
  put_products_id product_id product db = (OK r, db') ->
  get_products_id product_id db' = (OK r, db').
Proof.
  intros H. apply put_products_id_OK in H.
  destruct H as [_ [Hid [_ [Hl Hok]]]].
  rewrite get_products_id_run, Hid, Hl, Hok. reflexivity.
Qed.

Lemma get_after_update_witness :
  let db := [Product.mk 1 "Widget" (double 1 0) 5 (Some "d") (Some "c")] in
  let r := Product.mk 1 "Widget" (double 1 0) 10 (Some "d") (Some "c") in
  get_products_id 1 [r] = (OK r, [r]).
Proof.
  intros db r.
  apply (get_after_update 1
           (ProductUpdate.mk None None (Some (Some 10)) None None) db [r] r).
  reflexivity.
Defined.

Lemma updated_ids (product_id : Z) (u : ProductUpdate.t)
  (db rows : list Product.t) :
  Forall2 (updated_row product_id u) db rows ->
  map Product.id rows = map Product.id db.
Proof.
  intros H. induction H as [|r r' db rows Hr _ IH]; cbn [map]; [reflexivity|].
  rewrite (updated_row_id _ _ r r' Hr), IH. reflexivity.
Qed.

(** X15. No update request, accepted or not, adds a row, removes a row or
    changes an id: the ids of the table are the same list afterwards. *)
Theorem update_keeps_ids (db : list Product.t) (product_id : Z)
  (product : ProductUpdate.t) :
  map Product.id (snd (put_products_id product_id product db))
  = map Product.id db.
Proof.
  rewrite put_products_id_run.
  destruct (ProductUpdate.valid product); [|reflexivity].
  destruct (int64 product_id); [|reflexivity].
  destruct (lookup db product_id); [|reflexivity].
  destruct (flush _) as [e|rows] eqn:Hflush; [destruct e; reflexivity|].
  cbn [snd]. apply flush_stores in Hflush.
  cbn [pending_update objects] in Hflush.
  apply store_all_updated_inv in Hflush.
  exact (updated_ids _ _ _ _ Hflush).
Qed.

(** X19. An update whose payload supplies no field at all changes
    nothing for any existing record (id within 64 bits): the table is
    left as it was and the answer is the stored record passed through
    [ProductResponse], 200 when the record fits it. *)
Theorem update_empty_payload (db : list Product.t) (product_id : Z)
  (row : Product.t) :
  lookup db product_id = Some row ->
  int64 product_id = true ->
  put_products_id product_id (ProductUpdate.mk None None None None None) db
  = (respond row, db)
  /\ (presentable row = true -> finite (Product.price row) = true ->
      put_products_id product_id (ProductUpdate.mk None None None None None) db
      = (OK row, db)).
Proof.
  intros Hrow Hid.
  assert (E : put_products_id product_id
                (ProductUpdate.mk None None None None None) db
              = (respond row, db)).
  { rewrite put_products_id_run, Hid, Hrow.
    cbn [ProductUpdate.valid ProductUpdate.field_ok ProductUpdate.name
         ProductUpdate.price ProductUpdate.quantity ProductUpdate.description
         ProductUpdate.category andb].
    assert (Hobjects :
      updated_objects product_id (ProductUpdate.mk None None None None None) db
      = map load db).
    { unfold updated_objects. rewrite <- (map_id (map load db)) at 2.
      apply map_ext. intros o. destruct (Instance.id o =? product_id);
        [destruct o|]; reflexivity. }
    unfold flush, pending_update. cbn [objects written bound].
    rewrite Hobjects, store_all_load.
    cbn [binds items ProductUpdate.name ProductUpdate.price
         ProductUpdate.quantity ProductUpdate.description
         ProductUpdate.category opt_item app flat_map List.length repeat
         forallb].
    rewrite Hrow. reflexivity. }
  split; [exact E|].
  intros Hp Hf. rewrite E, (respond_presentable row Hp Hf). reflexivity.
Qed.

Lemma update_empty_payload_witness :
  let db := [Product.mk 1 "Widget" (double 1 0) 5 (Some "d") (Some "c");
             Product.mk 2 "Gadget" (double 3 0) 0 (Some "red") (Some "c")] in
  put_products_id 2 (ProductUpdate.mk None None None None None) db
  = (OK (Product.mk 2 "Gadget" (double 3 0) 0 (Some "red") (Some "c")), db).
Proof.
  intros db.
  destruct (update_empty_payload db 2
              (Product.mk 2 "Gadget" (double 3 0) 0 (Some "red") (Some "c"))
              eq_refl eq_refl) as [_ H].
  apply H; reflexivity.
Defined.

(** ** Failed requests *)

Lemma respond_cases (r : Product.t) :
  respond r = OK r
  \/ respond r = Unhandled ResponseValidationError
  \/ respond r = Unhandled ValueError.
Proof.
  unfold respond, respond_all.
  destruct (forallb presentable [r]); [|tauto].
  destruct (forallb _ [r]); tauto.
Qed.

Lemma unprocessable_cases {A : Type} (echoed : list float) :
  @unprocessable A echoed = Unprocessable
  \/ @unprocessable A echoed = Unhandled ValueError.
Proof. unfold unprocessable. destruct (forallb finite echoed); tauto. Qed.

(** X7. A create, update or delete that is answered with a client error
    (a status from 400 to 499: the 400s, 404 and 422) leaves the table
    exactly as it was. *)
Theorem failed_request_changes_nothing (db : list Product.t) :
  (forall product,
      400 <= status (fst (post_products product db)) < 500 ->
      snd (post_products product db) = db)
  /\ (forall product_id product,
         400 <= status (fst (put_products_id product_id product db)) < 500 ->
         snd (put_products_id product_id product db) = db)
  /\ (forall product_id,
         400 <= status (fst (delete_products_id product_id db)) < 500 ->
         snd (delete_products_id product_id db) = db).
Proof.
  split; [|split].
  - intros product. rewrite post_products_run.
    destruct (ProductCreate.valid product); [|reflexivity].
    destruct (truthy _); [|reflexivity].
    destruct (int64 (ProductCreate.quantity product)); [|reflexivity].
    destruct (name_taken _ _); [reflexivity|].
    destruct (int64 (next_rowid _)); [|reflexivity].
    cbn [fst].
    destruct (respond_cases (new_row db product)) as [E|[E|E]];
      rewrite E; cbn [status]; lia.
  - intros product_id product. rewrite put_products_id_run.
    destruct (ProductUpdate.valid product); [|reflexivity].
    destruct (int64 product_id); [|reflexivity].
    destruct (lookup db product_id) as [row|] eqn:Hrow; [|reflexivity].
    destruct (flush _) as [e|rows] eqn:Hflush; [destruct e; reflexivity|].
    destruct (flush_keeps_target _ _ _ _ row Hflush Hrow) as [row' [Hl _]].
    rewrite Hl. cbn [fst].
    destruct (respond_cases row') as [E|[E|E]]; rewrite E; cbn [status]; lia.
  - intros product_id. rewrite delete_products_id_run.
    destruct (int64 product_id); [|reflexivity].
    destruct (lookup db product_id); [|reflexivity].
    cbn [fst status]. lia.
Qed.

Lemma failed_request_changes_nothing_witness :
  let db := [Product.mk 1 "Widget" (double 1 0) 5 (Some "d") (Some "c")] in
  snd (post_products
         (ProductCreate.mk "Widget" (double 2 0) 1 (Some "d") (Some "c")) db)
  = db.
Proof.
  intros db. destruct (failed_request_changes_nothing db) as [H _].
  apply H. vm_compute. split; [discriminate|reflexivity].
Defined.

(** X14. A request that ends in an [OverflowError] or an
    [OperationalError] has changed nothing: the insert or update that
    was pending when the flush raised is discarded with the session
    [get_db] closes, although no handler rolls it back. *)
Theorem unbound_integer_changes_nothing (db : list Product.t) (e : exn) :
  e = OverflowError \/ e = OperationalError ->
  (forall product,
      fst (post_products product db) = Unhandled e ->
      snd (post_products product db) = db)
  /\ (forall product_id product,
         fst (put_products_id product_id product db) = Unhandled e ->
         snd (put_products_id product_id product db) = db)
  /\ (forall product_id,
         fst (delete_products_id product_id db) = Unhandled e ->
         snd (delete_products_id product_id db) = db).
Proof.
  intros He. split; [|split].
  - intros product. rewrite post_products_run.
    destruct (ProductCreate.valid product); [|reflexivity].
    destruct (truthy _); [|reflexivity].
    destruct (int64 (ProductCreate.quantity product)); [|reflexivity].
    destruct (name_taken _ _); [reflexivity|].
    destruct (int64 (next_rowid _)); [|reflexivity].
    cbn [fst]. intros H.
    destruct (respond_cases (new_row db product)) as [E|[E|E]];
      rewrite E in H; try discriminate; injection H as <-;
      destruct He; discriminate.
  - intros product_id product. rewrite put_products_id_run.
    destruct (ProductUpdate.valid product); [|reflexivity].
    destruct (int64 product_id); [|reflexivity].
    destruct (lookup db product_id) as [row|] eqn:Hrow; [|reflexivity].
    destruct (flush _) as [e'|rows] eqn:Hflush; [destruct e'; reflexivity|].
    destruct (flush_keeps_target _ _ _ _ row Hflush Hrow) as [row' [Hl _]].
    rewrite Hl. cbn [fst]. intros H.
    destruct (respond_cases row') as [E|[E|E]];
      rewrite E in H; try discriminate; injection H as <-;
      destruct He; discriminate.
  - intros product_id. rewrite delete_products_id_run.
    destruct (int64 product_id); [|reflexivity].
    destruct (lookup db product_id); [discriminate|reflexivity].
Qed.

Lemma unbound_integer_changes_nothing_witness :
  snd (post_products
         (ProductCreate.mk "Widget" (double 1 0) 9223372036854775808
            (Some "d") (Some "c"))
         [Product.mk 1 "Gadget" (double 3 0) 0 (Some "d") (Some "c")])
  = [Product.mk 1 "Gadget" (double 3 0) 0 (Some "d") (Some "c")].
Proof.
  destruct (unbound_integer_changes_nothing
              [Product.mk 1 "Gadget" (double 3 0) 0 (Some "d") (Some "c")]
              OverflowError (or_introl eq_refl)) as [H _].
  apply H. reflexivity.
Defined.

(** X9. No request ends with an unhandled [IntegrityError], [TypeError]
    or [InvalidRequestError]: every constraint failure of a flush is
    caught by the handler that committed, the request model keeps [null]
    away from the numeric comparisons of [update_product], and a
    refreshed object always has its row. *)
Theorem caught_exceptions_never_escape (db : list Product.t) :
  (forall product, escapes_only (fst (post_products product db)))
  /\ (forall product_id, escapes_only (fst (get_products_id product_id db)))
  /\ (forall product_id product,
         escapes_only (fst (put_products_id product_id product db)))
  /\ (forall product_id,
         escapes_only (fst (delete_products_id product_id db)))
  /\ (forall price_gte, escapes_only (fst (get_products price_gte db))).
Proof.
  assert (Hrespond : forall r, escapes_only (respond r)).
  { intros r e H. destruct (respond_cases r) as [E|[E|E]];
      rewrite E in H; try discriminate; injection H as <-;
      repeat split; discriminate. }
  assert (Hun : forall (A : Type) l, escapes_only (@unprocessable A l)).
  { intros A l e H. destruct (@unprocessable_cases A l) as [E|E];
      rewrite E in H; try discriminate; injection H as <-;
      repeat split; discriminate. }
  assert (Hfix : forall (A : Type) (r : response A),
             (forall e, r <> Unhandled e) -> escapes_only r).
  { intros A r Hr e H. exfalso. exact (Hr e H). }
  assert (Hone : forall (A : Type) e0,
             e0 = OverflowError \/ e0 = OperationalError ->
             escapes_only (@Unhandled A e0)).
  { intros A e0 He0 e H. injection H as <-.
    destruct He0 as [ -> | -> ]; repeat split; discriminate. }
  split; [|split; [|split; [|split]]].
  - intros product. rewrite post_products_run.
    destruct (ProductCreate.valid product); [|apply Hun].
    destruct (truthy _); [|apply Hfix; discriminate].
    destruct (int64 (ProductCreate.quantity product)); [|apply Hone; tauto].
    destruct (name_taken _ _); [apply Hfix; discriminate|].
    destruct (int64 (next_rowid _)); [apply Hrespond|apply Hone; tauto].
  - intros product_id. rewrite get_products_id_run.
    destruct (int64 product_id); [|apply Hone; tauto].
    destruct (lookup db product_id);
      [apply Hrespond|apply Hfix; discriminate].
  - intros product_id product. rewrite put_products_id_run.
    destruct (ProductUpdate.valid product); [|apply Hun].
    destruct (int64 product_id); [|apply Hone; tauto].
    destruct (lookup db product_id) as [row|] eqn:Hrow;
      [|apply Hfix; discriminate].
    destruct (flush _) as [e|rows] eqn:Hflush.
    + destruct (flush_not_caught _ _ Hflush) as [ -> | [ -> | -> ] ];
        [apply Hfix; discriminate|apply Hone; tauto|apply Hone; tauto].
    + destruct (flush_keeps_target _ _ _ _ row Hflush Hrow) as [row' [Hl _]].
      rewrite Hl. apply Hrespond.
  - intros product_id. rewrite delete_products_id_run.
    destruct (int64 product_id); [|apply Hone; tauto].
    destruct (lookup db product_id); apply Hfix; discriminate.
  - intros price_gte. rewrite get_products_run.
    destruct (match price_gte with Some x => float_ge x zero | None => true end);
      [|apply Hfix; discriminate].
    cbn [fst]. unfold respond_all.
    destruct (forallb presentable _); [|intros e H; injection H as <-;
                                         repeat split; discriminate].
    destruct (forallb _ _); [apply Hfix; discriminate|].
    intros e H; injection H as <-; repeat split; discriminate.
Qed.

(** X17. The error responses a client can receive from the handlers are
    these and no others: from create 400 with "Product name is required"
    or the duplicate-name message; from get and delete 404 "Product not
    found"; from update that 404 or 400 "Product update failed due to
    integrity error."; from list none. The 400 price and quantity
    messages of [update_product] never reach a client. *)
Theorem error_responses_enumerated (db : list Product.t) (c : Z) (d : string) :
  (forall product,
      fst (post_products product db) = Error c d ->
      c = 400
      /\ (d = "Product name is required"
          \/ d = "Product creation failed due to duplicate name."))
  /\ (forall product_id,
         fst (get_products_id product_id db) = Error c d ->
         c = 404 /\ d = "Product not found")
  /\ (forall product_id product,
         fst (put_products_id product_id product db) = Error c d ->
         (c = 404 /\ d = "Product not found")
         \/ (c = 400 /\ d = "Product update failed due to integrity error."))
  /\ (forall product_id,
         fst (delete_products_id product_id db) = Error c d ->
         c = 404 /\ d = "Product not found")
  /\ (forall price_gte, fst (get_products price_gte db) <> Error c d).
Proof.
  split; [|split; [|split; [|split]]].
  - intros product. rewrite post_products_run.
    destruct (ProductCreate.valid product).
    + destruct (truthy _);
        [|cbn [fst]; intros H; injection H as <- <-; tauto].
      destruct (int64 (ProductCreate.quantity product)); [|discriminate].
      destruct (name_taken _ _);
        [cbn [fst]; intros H; injection H as <- <-; tauto|].
      destruct (int64 (next_rowid _)); [|discriminate].
      cbn [fst]. intros H. exfalso. exact (respond_not_Error _ _ _ H).
    + cbn [fst]. intros H.
      destruct (@unprocessable_cases Product.t
                  (rejected (fun x => float_gt x zero)
                     (ProductCreate.price product))) as [E|E];
        rewrite E in H; discriminate.
  - intros product_id. rewrite get_products_id_run.
    destruct (int64 product_id); [|discriminate].
    destruct (lookup db product_id).
    + cbn [fst]. intros H. exfalso. exact (respond_not_Error _ _ _ H).
    + cbn [fst]. intros H. injection H as <- <-. tauto.
  - intros product_id product. rewrite put_products_id_run.
    destruct (ProductUpdate.valid product).
    + destruct (int64 product_id); [|discriminate].
      destruct (lookup db product_id);
        [|cbn [fst]; intros H; injection H as <- <-; tauto].
      destruct (flush _) as [e|rows].
      * destruct e; try discriminate.
        cbn [fst]. intros H. injection H as <- <-. tauto.
      * destruct (lookup rows product_id); [|discriminate].
        cbn [fst]. intros H. exfalso. exact (respond_not_Error _ _ _ H).
    + cbn [fst]. intros H.
      destruct (@unprocessable_cases Product.t
                  match ProductUpdate.price product with
                  | Some (Some x) => rejected (fun x => float_gt x zero) x
                  | _ => []
                  end) as [E|E];
        rewrite E in H; discriminate.
  - intros product_id. rewrite delete_products_id_run.
    destruct (int64 product_id); [|discriminate].
    destruct (lookup db product_id); [discriminate|].
    cbn [fst]. intros H. injection H as <- <-. tauto.
  - intros price_gte. rewrite get_products_run.
    destruct (match price_gte with Some x => float_ge x zero | None => true end).
    + cbn [fst]. destruct (respond_all _); discriminate.
    + discriminate.
Qed.

Lemma lookup_filter_other (db : list Product.t) (product_id pk : Z) :
  pk <> product_id ->
  lookup (filter (fun r => negb (Product.id r =? product_id)) db) pk
  = lookup db pk.
Proof.
  intros Hpk. unfold lookup. induction db as [|r db IH]; cbn [filter find];
    [reflexivity|].
  destruct (Z.eqb_spec (Product.id r) product_id) as [E|E]; cbn [negb find].
  - rewrite (proj2 (Z.eqb_neq (Product.id r) pk)) by congruence. exact IH.
  - destruct (Product.id r =? pk); [reflexivity|exact IH].
Qed.

Lemma lookup_app_stored (db : list Product.t) (r : Product.t) (pk : Z) :
  pk <> Product.id r -> lookup (db ++ [r]) pk = lookup db pk.
Proof.
  intros Hpk. unfold lookup. induction db as [|r' db IH]; cbn [app find].
  - rewrite (proj2 (Z.eqb_neq (Product.id r) pk)) by congruence. reflexivity.
  - destruct (Product.id r' =? pk); [reflexivity|exact IH].
Qed.

(** X18. A create and a delete leave every other record readable as
    before: a get on an id other than the deleted one, or on an id that
    was stored before the create, answers after the request what it
    answered before it. *)
Theorem writes_leave_other_records (db : list Product.t) (pk : Z) :
  (forall product_id,
      pk <> product_id ->
      fst (get_products_id pk (snd (delete_products_id product_id db)))
      = fst (get_products_id pk db))
  /\ (forall product,
         In pk (map Product.id db) ->
         fst (get_products_id pk (snd (post_products product db)))
         = fst (get_products_id pk db)).
Proof.
  split.
  - intros product_id Hpk.
    rewrite delete_products_id_run, !get_products_id_run.
    destruct (int64 pk); [|reflexivity].
    destruct (int64 product_id); [|reflexivity].
    destruct (lookup db product_id); cbn [snd]; [|reflexivity].
    rewrite (lookup_filter_other db product_id pk Hpk).
    destruct (lookup db pk); reflexivity.
  - intros product Hin. rewrite post_products_run, !get_products_id_run.
    destruct (int64 pk); [|reflexivity].
    destruct (ProductCreate.valid product); [|reflexivity].
    destruct (truthy _); [|reflexivity].
    destruct (int64 (ProductCreate.quantity product)); [|reflexivity].
    destruct (name_taken _ _); [reflexivity|].
    destruct (int64 (next_rowid _)); [|reflexivity]. cbn [snd].
    rewrite lookup_app_stored; [destruct (lookup db pk); reflexivity|].
    intros E. apply (next_rowid_fresh db). cbn [new_row Product.id] in E.
    rewrite <- E. exact Hin.
Qed.

(** ** Reachable tables keep the constraints *)

Lemma updated_in_range (product_id : Z) (u : ProductUpdate.t)
  (r r' : Product.t) :
  ProductUpdate.valid u = true ->
  updated_row product_id u r r' -> in_range r -> in_range r'.
Proof.
  unfold updated_row. intros Hvalid Hr Hin.
  destruct (Product.id r =? product_id); [|subst r'; exact Hin].
  apply store_patch_fields in Hr. destruct Hr as [Hret Happ].
  destruct (valid_fields u Hvalid) as [_ [_ [_ [_ [_ [Hvp Hvq]]]]]].
  unfold retains in Hret. unfold applied in Happ. unfold in_range in *.
  split.
  - destruct (ProductUpdate.price u) as [v|] eqn:Ep.
    + destruct Happ as [_ [Hp _]]. specialize (Hp v eq_refl). subst v.
      exact (Hvp _ eq_refl).
    + destruct Hret as [_ [_ [Hp _]]]. rewrite (Hp eq_refl). tauto.
  - destruct (ProductUpdate.quantity u) as [v|] eqn:Eq.
    + destruct Happ as [_ [_ [Hq _]]]. specialize (Hq v eq_refl). subst v.
      exact (Hvq _ eq_refl).
    + destruct Hret as [_ [_ [_ [Hq _]]]]. rewrite (Hq eq_refl). tauto.
Qed.

(** A name the update gives the targeted row is carried by no row with
    another id, once the flush has checked it. *)
Lemma updated_name_free (product_id : Z) (u : ProductUpdate.t)
  (db : list Product.t) (r1 r1' r2 : Product.t) (v : option string) :
  ProductUpdate.name u = Some v ->
  unique_ok (updated_objects product_id u db) product_id = true ->
  In r1 db -> Product.id r1 = product_id ->
  store (patch u (load r1)) = Some r1' ->
  In r2 db -> Product.id r2 <> product_id ->
  Product.name r1' <> Product.name r2.
Proof.
  intros Hname Hok H1 Hid1 Hs H2 Hid2 E.
  set (os := updated_objects product_id u db) in *.
  assert (Htarget : In (patch u (load r1)) os).
  { unfold os, updated_objects. apply in_map_iff. exists (load r1). split.
    - change (Instance.id (load r1)) with (Product.id r1).
      rewrite (proj2 (Z.eqb_eq _ _) Hid1). reflexivity.
    - apply in_map, H1. }
  assert (Hother : In (load r2) os).
  { unfold os, updated_objects. apply in_map_iff. exists (load r2). split.
    - change (Instance.id (load r2)) with (Product.id r2).
      rewrite (proj2 (Z.eqb_neq _ _) Hid2). reflexivity.
    - apply in_map, H2. }
  unfold unique_ok in Hok. rewrite forallb_forall in Hok.
  specialize (Hok _ Htarget). rewrite patch_id in Hok.
  change (Instance.id (load r1)) with (Product.id r1) in Hok.
  rewrite (proj2 (Z.eqb_eq _ _) Hid1) in Hok. cbn [negb orb] in Hok.
  apply negb_true_iff in Hok.
  assert (Hclash : name_clash os (patch u (load r1)) = true).
  { unfold name_clash. apply existsb_exists. exists (load r2).
    split; [exact Hother|].
    apply store_patch_fields in Hs. destruct Hs as [_ [Hn _]].
    specialize (Hn v Hname).
    rewrite patch_eq, Hname, Hn.
    cbn [load Instance.id Instance.name opt_eqb].
    rewrite Hid1, (proj2 (Z.eqb_neq _ _) Hid2), E, String.eqb_refl.
    reflexivity. }
  congruence.
Qed.

Lemma update_keeps_constraints (product_id : Z) (u : ProductUpdate.t)
  (db rows : list Product.t) :
  constraints_hold db ->
  ProductUpdate.valid u = true ->
  flush (pending_update product_id u db) = inr rows ->
  constraints_hold rows.
Proof.
  intros [Hid [Hnames Hrange]] Hvalid Hflush.
  pose proof (flush_checked _ _ Hflush) as Hchecked.
  cbn [pending_update objects written] in Hchecked.
  apply flush_stores in Hflush. cbn [pending_update objects] in Hflush.
  apply store_all_updated_inv in Hflush.
  assert (Hids : NoDup (map Product.id rows))
    by (rewrite (updated_ids _ _ _ _ Hflush); exact Hid).
  split; [exact Hids|]. split.
  - apply NoDup_names_of; [exact Hids|].
    pose proof (names_by_id_of_NoDup db Hnames) as Hby.
    assert (Hcross : forall r1 r1' r2,
               In r1 db -> Product.id r1 = product_id ->
               store (patch u (load r1)) = Some r1' ->
               In r2 db -> Product.id r2 <> product_id ->
               Product.name r1' <> Product.name r2).
    { intros r1 r1' r2 H1 Hid1 Hs H2 Hid2.
      destruct (ProductUpdate.name u) as [v|] eqn:Ename.
      - apply (updated_name_free product_id u db r1 r1' r2 v); try assumption.
        assert (Hitems : exists k, List.length (items u) = S k).
        { unfold items. rewrite Ename. cbn [opt_item app List.length].
          eexists. reflexivity. }
        destruct Hitems as [k Hk]. rewrite Hk in Hchecked.
        exact (forallb_repeat _ _ _ Hchecked).
      - apply store_patch_fields in Hs. destruct Hs as [[_ [Hn _]] _].
        rewrite (Hn Ename). intros E.
        apply Hid2. rewrite <- Hid1. symmetry. apply Hby; assumption. }
    intros r1' r2' H1' H2' E.
    destruct (Forall2_In_r _ _ _ _ Hflush H1') as [r1 [H1 Hr1]].
    destruct (Forall2_In_r _ _ _ _ Hflush H2') as [r2 [H2 Hr2]].
    rewrite (updated_row_id _ _ _ _ Hr1), (updated_row_id _ _ _ _ Hr2).
    unfold updated_row in Hr1, Hr2.
    destruct (Z.eqb_spec (Product.id r1) product_id) as [E1|E1];
      destruct (Z.eqb_spec (Product.id r2) product_id) as [E2|E2].
    + congruence.
    + subst r2'. exfalso.
      exact (Hcross r1 r1' r2 H1 E1 Hr1 H2 E2 E).
    + subst r1'. exfalso.
      exact (Hcross r2 r2' r1 H2 E2 Hr2 H1 E1 (eq_sym E)).
    + subst r1' r2'. apply Hby; assumption.
  - apply Forall_forall. intros r' Hr'.
    destruct (Forall2_In_r _ _ _ _ Hflush Hr') as [r [Hr Hrr']].
    apply (updated_in_range product_id u r r' Hvalid Hrr').
    rewrite Forall_forall in Hrange. apply Hrange, Hr.
Qed.

Lemma apply_operation_keeps_constraints (db : list Product.t) (o : operation) :
  constraints_hold db -> constraints_hold (apply_operation db o).
Proof.
  intros Hdb. destruct o as [product|product_id product|product_id];
    cbn [apply_operation].
  - rewrite post_products_run.
    destruct (ProductCreate.valid product) eqn:Hvalid; [|exact Hdb].
    destruct (truthy (ProductCreate.name product)); [|exact Hdb].
    destruct (int64 (ProductCreate.quantity product)); [|exact Hdb].
    destruct (name_taken db (ProductCreate.name product)) eqn:Htaken;
      [exact Hdb|].
    destruct (int64 (next_rowid _)); [|exact Hdb].
    cbn [snd].
    destruct Hdb as [Hid [Hnames Hrange]].
    unfold constraints_hold. rewrite !map_app. cbn [map].
    split; [|split].
    + apply NoDup_app; [exact Hid|repeat constructor; tauto|].
      intros a Ha [<-|[]]. exact (next_rowid_fresh db Ha).
    + apply NoDup_app; [exact Hnames|repeat constructor; tauto|].
      intros a Ha [<-|[]]. apply name_taken_spec in Ha.
      cbn [new_row Product.name] in Ha. congruence.
    + apply Forall_app. split; [exact Hrange|].
      constructor; [|constructor].
      unfold ProductCreate.valid in Hvalid. apply andb_true_iff in Hvalid.
      destruct Hvalid as [Hp Hq]. apply Z.leb_le in Hq.
      split; assumption.
  - rewrite put_products_id_run.
    destruct (ProductUpdate.valid product) eqn:Hvalid; [|exact Hdb].
    destruct (int64 product_id); [|exact Hdb].
    destruct (lookup db product_id); [|exact Hdb].
    destruct (flush _) as [e|rows] eqn:Hflush; [destruct e; exact Hdb|].
    cbn [snd].
    exact (update_keeps_constraints _ _ _ _ Hdb Hvalid Hflush).
  - rewrite delete_products_id_run.
    destruct (int64 product_id); [|exact Hdb].
    destruct (lookup db product_id); [|exact Hdb].
    cbn [snd].
    destruct Hdb as [Hid [Hnames Hrange]].
    split; [|split].
    + apply NoDup_map_filter, Hid.
    + apply NoDup_map_filter, Hnames.
    + apply Forall_forall. intros r Hr. apply filter_In in Hr.
      rewrite Forall_forall in Hrange. apply Hrange. tauto.
Qed.

(** X8. Every table a sequence of creates, updates and deletes can leave
    has distinct ids, distinct names, and in every row a price above 0 and a
    quantity of at least 0. *)
Theorem reachable_constraints_hold (ops : list operation) :
  constraints_hold (run ops).
Proof.
  unfold run.
  assert (H : forall db, constraints_hold db ->
                         constraints_hold (fold_left apply_operation ops db)).
  { induction ops as [|o ops IH]; cbn [fold_left]; intros db Hdb; [exact Hdb|].
    apply IH, apply_operation_keeps_constraints, Hdb. }
  apply H. repeat split; constructor.
Qed.

(** ** Accepted updates *)

(** The record an update writes can be rendered when the record it
    replaces could and the price the payload supplies is finite. *)
Lemma patched_presentable (u : ProductUpdate.t) (row row' : Product.t) :
  ProductUpdate.valid u = true ->
  store (patch u (load row)) = Some row' ->
  presentable row = true ->
  finite (Product.price row) = true ->
  (forall x, ProductUpdate.price u = Some (Some x) -> finite x = true) ->
  presentable row' = true /\ finite (Product.price row') = true.
Proof.
  intros Hvalid Hs Hp Hf Hfin.
  destruct (valid_fields u Hvalid) as [_ [_ [_ [Hd [Hc [Hvp Hvq]]]]]].
  apply store_patch_fields in Hs. destruct Hs as [Hret Happ].
  destruct Hret as [_ [_ [Rp [Rq [Rd Rc]]]]].
  destruct Happ as [_ [Ap [Aq [Ad Ac]]]].
  unfold presentable in *. rewrite !andb_true_iff in Hp.
  destruct Hp as [[[Hp1 Hp2] Hp3] Hp4].
  assert (Gp : float_gt (Product.price row') zero = true
               /\ finite (Product.price row') = true).
  { destruct (ProductUpdate.price u) as [v|] eqn:Ep.
    - specialize (Ap v eq_refl). subst v. split.
      + exact (Hvp _ eq_refl).
      + exact (Hfin _ eq_refl).
    - rewrite (Rp eq_refl). tauto. }
  assert (Gq : (0 <=? Product.quantity row') = true).
  { destruct (ProductUpdate.quantity u) as [v|] eqn:Eq.
    - specialize (Aq v eq_refl). subst v. apply Z.leb_le.
      exact (Hvq _ eq_refl).
    - rewrite (Rq eq_refl). exact Hp2. }
  assert (Gd : match Product.description row' with
               | Some _ => true | None => false end = true).
  { destruct (ProductUpdate.description u) as [v|] eqn:Ed.
    - specialize (Ad v eq_refl). rewrite <- Ad.
      destruct v; [reflexivity|congruence].
    - rewrite (Rd eq_refl). exact Hp3. }
  assert (Gc : match Product.category row' with
               | Some _ => true | None => false end = true).
  { destruct (ProductUpdate.category u) as [v|] eqn:Ec.
    - specialize (Ac v eq_refl). rewrite <- Ac.
      destruct v; [reflexivity|congruence].
    - rewrite (Rc eq_refl). exact Hp4. }
  destruct Gp as [Gp Gf]. rewrite Gp, Gq, Gd, Gc. split; [reflexivity|exact Gf].
Qed.

(** X10. In a table whose names are distinct, an update of an existing
    record that can be rendered (description and category present, finite
    price) is answered 200 with the updated record, when the id is within
    64 bits, the request model accepts the payload, the quantity it
    supplies is below 2^63, the price it supplies is finite, and the name
    it supplies is carried by no other record. The returned record is the
    one then stored under the id; it carries every supplied value and
    keeps every field the payload leaves out. *)
Theorem update_valid_payload_succeeds
  (db : list Product.t) (product_id : Z) (row : Product.t)
  (product : ProductUpdate.t) :
  lookup db product_id = Some row ->
  int64 product_id = true ->
  NoDup (map Product.name db) ->
  presentable row = true ->
  finite (Product.price row) = true ->
  ProductUpdate.valid product = true ->
  quantity_fits product ->
  (forall x, ProductUpdate.price product = Some (Some x) -> finite x = true) ->
  (forall n r, ProductUpdate.name product = Some (Some n) ->
               In r db -> Product.id r <> product_id -> Product.name r <> n) ->
  exists row',
    fst (put_products_id product_id product db) = OK row'
    /\ lookup (snd (put_products_id product_id product db)) product_id
       = Some row'
    /\ applied product row'
    /\ retains product row row'.
Proof.
  intros Hrow Hid Hnames Hp Hf Hvalid Hfits Hfin Hfree.
  destruct (update_flush_accepted db product_id row product
              Hrow Hid Hnames Hvalid Hfits Hfree) as [rows Hflush].
  destruct (flush_keeps_target _ _ _ _ row Hflush Hrow) as [row' [Hl Hs]].
  destruct (patched_presentable product row row' Hvalid Hs Hp Hf Hfin)
    as [Hp' Hf'].
  rewrite put_products_id_run, Hvalid, Hid, Hrow, Hflush, Hl.
  cbn [fst snd]. exists row'. apply store_patch_fields in Hs.
  split; [exact (respond_presentable row' Hp' Hf')|].
  split; [exact Hl|]. tauto.
Qed.

Lemma update_valid_payload_succeeds_witness :
  let db := [Product.mk 1 "Widget" (double 1 0) 5 (Some "blue") (Some "tools");
             Product.mk 2 "Gadget" (double 3 0) 0 (Some "grey") (Some "tools")] in
  let product :=
    ProductUpdate.mk (Some (Some "Gizmo")) (Some (Some (double 2 0)))
      None None None in
  exists row',
    fst (put_products_id 1 product db) = OK row'
    /\ lookup (snd (put_products_id 1 product db)) 1 = Some row'
    /\ applied product row'
    /\ retains product
         (Product.mk 1 "Widget" (double 1 0) 5 (Some "blue") (Some "tools"))
         row'.
Proof.
  intros db product.
  apply (update_valid_payload_succeeds db 1
           (Product.mk 1 "Widget" (double 1 0) 5 (Some "blue") (Some "tools"))
           product).
  - reflexivity.
  - reflexivity.
  - repeat constructor; simpl; intuition discriminate.
  - reflexivity.
  - reflexivity.
  - reflexivity.
  - intros q E. discriminate.
  - intros x E. injection E as <-. reflexivity.
  - intros n r Hn [<-|[<-|[]]] Hid; injection Hn as <-;
      simpl in *; [lia|discriminate].
Defined.

(** C4 fails on the code. From the empty table, creating "Widget" with a
    description and a category and then updating it with the name [""] is
    answered 200 with the renamed record and leaves a stored row whose
    name is empty: [update_product] has no check of the name, unlike
    [create_product], which answers the same name with 400. *)
Theorem update_stores_empty_name :
  let created :=
    ProductCreate.mk "Widget" (double 1 0) 5 (Some "small") (Some "tools") in
  let renamed := ProductUpdate.mk (Some (Some "")) None None None None in
  let stored := Product.mk 1 "" (double 1 0) 5 (Some "small") (Some "tools") in
  run [Create created] =
    [Product.mk 1 "Widget" (double 1 0) 5 (Some "small") (Some "tools")]
  /\ put_products_id 1 renamed (run [Create created]) = (OK stored, [stored])
  /\ run [Create created; Update 1 renamed] = [stored]
  /\ Product.name stored = ""
  /\ post_products (ProductCreate.mk "" (double 1 0) 5 (Some "small")
                      (Some "tools")) []
     = (Error 400 "Product name is required", []).
Proof.
  cbv zeta. repeat split; vm_compute; reflexivity.
Qed.
